(** * Processor: the ROS2 perception node of easy_perception_deployment

    A shallow embedding of
    [easy_perception_deployment/include/epd_utils_lib/processor.hpp]:
    the two subscription callbacks [Processor::state_callback] and
    [Processor::topic_callback], run over an explicit node state.

    - Integers of the source ([uint32_t], [int], [size_t]) are [Z] or [nat];
      the one narrowing conversion the callback performs (detector
      coordinates stored into the [uint32] fields of a RegionOfInterest) is
      written out as [to_uint32].
    - Side effects (log lines, publications, calls into the EPDContainer,
      [rclcpp::shutdown]) are appended to a chronological [trace].
    - A call can end in three ways: it returns, it throws, or it runs into
      undefined behaviour (a [std::vector] subscript out of range). *)

From Stdlib Require Import ZArith List String Ascii Bool Lia.
Import ListNotations.
Local Open Scope string_scope.
Local Open Scope list_scope.
Local Open Scope Z_scope.


(* ================================================================== *)
(** ** Bus messages *)

(** [sensor_msgs::msg::Image], the fields the node reads or fills. *)
Module Image.
Record t : Type := mk
  { height : Z;            (* uint32 *)
    width : Z;             (* uint32 *)
    encoding : string;
    data : list Z }.
End Image.

(** [std_msgs::msg::String]. *)
Module StringMsg.
Record t : Type := mk { data : string }.
End StringMsg.

(** [sensor_msgs::msg::RegionOfInterest]; the four extents are [uint32]. *)
Module RegionOfInterest.
Record t : Type := mk
  { x_offset : Z;
    y_offset : Z;
    height : Z;
    width : Z;
    do_rectify : bool }.
End RegionOfInterest.

(** [epd_msgs::msg::EPDImageClassification]. *)
Module EPDImageClassification.
Record t : Type := mk { object_names : list string }.
End EPDImageClassification.

(** The 32-bit unsigned range of the RegionOfInterest fields. *)
Definition uint32_max : Z := 2 ^ 32.

(** Conversion of an integer to [uint32_t]: reduction modulo [2^32]. *)
Definition to_uint32 (z : Z) : Z := z mod uint32_max.

(* ================================================================== *)
(** ** External collaborators

    cv_bridge, OpenCV and the three ONNX sessions are not part of the node;
    the callbacks are written against this interface.  Every inference
    entry point and the decoder may throw. *)

Class Backend : Type :=
  { (** [cv::Mat] with its public [cols] and [rows] *)
    Mat : Type;
    cols : Mat -> Z;
    rows : Mat -> Z;
    (** element type of the score vectors *)
    Score : Type;
    (** what the collaborators throw *)
    ExtError : Type;
    (** [cv_bridge::toCvCopy(msg, enc)->image] *)
    toCvCopy : Image.t -> string -> ExtError + Mat;
    (** [cv_bridge::CvImage(std_msgs::msg::Header(), enc, m).toImageMsg()] *)
    toImageMsg : string -> Mat -> Image.t }.

(** A detector box, indexed [0..3] in the source: (x1, y1, x2, y2). *)
Definition BBox : Type := (Z * Z * Z * Z)%type.

(** [b[k]] for a box; the source only uses the constants 0..3. *)
Definition coord (b : BBox) (k : nat) : Z :=
  let '(c0, c1, c2, c3) := b in
  match k with
  | 0%nat => c0
  | 1%nat => c1
  | 2%nat => c2
  | _ => c3
  end.

Section WithBackend.
Context {backend : Backend}.

(** Modelled from the spec: [EPD::EPDObjectDetection] (message_utils.hpp is
    not among the sources).  Section 3 gives it a size [data_size], integer
    class indices, scores, boxes that are quadruples of integer pixel
    coordinates, and one mask per item. *)
Record EPDObjectDetection : Type := mkResult
  { data_size : nat;
    classIndices : list Z;
    scores : list Score;
    bboxes : list BBox;
    masks : list Mat }.

(** Modelled from the spec: [epd_msgs::msg::EPDObjectDetection] (the message
    definition is not among the sources).  Section 6 lists its sequences;
    the element types of [class_indices] and [scores] are those of the
    detector result, so [push_back] stores the element unchanged.  The
    fields [scores], [bboxes] and [masks] carry the prefix [msg_] to keep
    them apart from those of the detector result. *)
Record EPDObjectDetectionMsg : Type := mkDetection
  { class_indices : list Z;
    msg_scores : list Score;
    msg_bboxes : list RegionOfInterest.t;
    msg_masks : list Image.t }.

(** The three sessions held by the container, as the callback uses them
    ([p1_ort_session->infer], [p2_ort_session->infer_visualize], ...).
    A session answers as a function of the frame it is given. *)
Record Sessions : Type := mkSessions
  { p1_infer : Mat -> ExtError + list string;
    p2_infer_visualize : Mat -> ExtError + Mat;
    p2_infer_action : Mat -> ExtError + EPDObjectDetection;
    p3_infer_visualize : Mat -> ExtError + Mat;
    p3_infer_action : Mat -> ExtError + EPDObjectDetection }.

(* ================================================================== *)
(** ** The container the node owns *)

(** Modelled from the spec: [EPD::EPDContainer] (epd_container.hpp is not
    among the sources).  Section 3 describes it as the mutable record
    SessionState with the fields initialized, width, height,
    precision_level, visualize_mode and an opaque session handle; here the
    handle remembers the geometry the session was allocated for. *)
Record EPDContainer : Type := mkContainer
  { initialized : bool;
    width : Z;
    height : Z;
    precision_level : Z;
    visualize_mode : bool;
    session_handle : option (Z * Z) }.

(** Modelled from the spec: the accessors of the container read the
    corresponding SessionState field. *)
Definition isInit (a : EPDContainer) : bool := initialized a.
Definition getWidth (a : EPDContainer) : Z := width a.
Definition getHeight (a : EPDContainer) : Z := height a.
Definition isVisualize (a : EPDContainer) : bool := visualize_mode a.

(** Modelled from the spec: "capture (W, H) from the frame, persist into
    SessionState". *)
Definition setFrameDimension (w h : Z) (a : EPDContainer) : EPDContainer :=
  {| initialized := initialized a;
     width := w;
     height := h;
     precision_level := precision_level a;
     visualize_mode := visualize_mode a;
     session_handle := session_handle a |}.

(** Modelled from the spec: "invoke the session initializer (loads model,
    allocates tensors sized to WxH)". *)
Definition initORTSessionHandler (a : EPDContainer) : EPDContainer :=
  {| initialized := initialized a;
     width := width a;
     height := height a;
     precision_level := precision_level a;
     visualize_mode := visualize_mode a;
     session_handle := Some (width a, height a) |}.

(** Modelled from the spec: "set initialized = true". *)
Definition setInitBoolean (b : bool) (a : EPDContainer) : EPDContainer :=
  {| initialized := b;
     width := width a;
     height := height a;
     precision_level := precision_level a;
     visualize_mode := visualize_mode a;
     session_handle := session_handle a |}.

(* ================================================================== *)
(** ** Observable effects *)

(** The four publishers created by the constructor. *)
Inductive Publisher : Type := visual_pub | p1_pub | p2_pub | p3_pub.

(** Topic each publisher was created on ([Processor::Processor]). *)
Definition topic_of (p : Publisher) : string :=
  match p with
  | visual_pub => "/processor/output"
  | p1_pub => "/processor/epd_p1_output"
  | p2_pub => "/processor/epd_p2_output"
  | p3_pub => "/processor/epd_p3_output"
  end.

Inductive Payload : Type :=
| ImagePayload (m : Image.t)
| ClassificationPayload (m : EPDImageClassification.t)
| DetectionPayload (m : EPDObjectDetectionMsg).

(** Mutating calls into the container. *)
Inductive AgentCall : Type :=
| CallSetFrameDimension (w h : Z)
| CallInitORTSessionHandler
| CallSetInitBoolean (b : bool).

Inductive Event : Type :=
| EvWarn (text : string)                     (* RCLCPP_WARN *)
| EvInfo (format : string)                   (* RCLCPP_INFO *)
| EvPublish (p : Publisher) (m : Payload)    (* p->publish(m) *)
| EvAgent (c : AgentCall)
| EvShutdown.                                (* rclcpp::shutdown() *)

(** What a callback can change: the container, whether the rclcpp context
    is still up, and the trace. *)
Record World : Type := mkWorld
  { ortAgent_ : EPDContainer;
    rclcpp_ok : bool;
    trace : list Event }.

Inductive Exception : Type :=
| runtime_error (what : string)   (* thrown by the node itself *)
| foreign (e : ExtError).         (* thrown inside a collaborator *)

(** How a computation ends.  [Undefined] stands for undefined behaviour:
    the model stops the callback there, and nothing is claimed about what
    the program does afterwards. *)
Inductive Res (A : Type) : Type :=
| Ok (a : A)
| Throw (e : Exception)
| Undefined.
Arguments Ok {A} a.
Arguments Throw {A} e.
Arguments Undefined {A}.

(** Local computations that may throw. *)
Definition rbind {A B : Type} (c : Res A) (k : A -> Res B) : Res B :=
  match c with
  | Ok a => k a
  | Throw e => Throw e
  | Undefined => Undefined
  end.

(** Computations over the node state.  State written before a throw stays
    written. *)
Definition M (A : Type) : Type := World -> Res A * World.

Definition ret {A : Type} (a : A) : M A := fun w => (Ok a, w).

Definition bind {A B : Type} (c : M A) (k : A -> M B) : M B :=
  fun w =>
    match c w with
    | (Ok a, w') => k a w'
    | (Throw e, w') => (Throw e, w')
    | (Undefined, w') => (Undefined, w')
    end.

Definition throw {A : Type} (e : Exception) : M A := fun w => (Throw e, w).

Definition lift {A : Type} (r : Res A) : M A := fun w => (r, w).

Definition of_ext {A : Type} (r : ExtError + A) : Res A :=
  match r with
  | inl e => Throw (foreign e)
  | inr a => Ok a
  end.

Definition emit (e : Event) : M unit :=
  fun w =>
    (Ok tt,
     {| ortAgent_ := ortAgent_ w;
        rclcpp_ok := rclcpp_ok w;
        trace := trace w ++ [e] |}).

Definition agent : M EPDContainer := fun w => (Ok (ortAgent_ w), w).

(** A mutating method call on [ortAgent_]. *)
Definition call (c : AgentCall) (f : EPDContainer -> EPDContainer) : M unit :=
  fun w =>
    (Ok tt,
     {| ortAgent_ := f (ortAgent_ w);
        rclcpp_ok := rclcpp_ok w;
        trace := trace w ++ [EvAgent c] |}).

Definition rclcpp_shutdown : M unit :=
  fun w =>
    (Ok tt,
     {| ortAgent_ := ortAgent_ w;
        rclcpp_ok := false;
        trace := trace w ++ [EvShutdown] |}).

Definition publish (p : Publisher) (m : Payload) : M unit :=
  emit (EvPublish p m).

Definition RCLCPP_WARN (text : string) : M unit := emit (EvWarn text).
Definition RCLCPP_INFO (format : string) : M unit := emit (EvInfo format).


Notation "x <- c ;; k" := (bind c (fun x => k))
  (at level 61, c at next level, right associativity).
Notation "c ;; k" := (bind c (fun _ => k))
  (at level 61, right associativity).
Notation "x <~ c ;; k" := (rbind c (fun x => k))
  (at level 61, c at next level, right associativity).

(* ================================================================== *)
(** ** C++ library operations the callbacks use *)

(** [std::string(s.c_str())]: building a [std::string] from a C string
    keeps the characters before the first NUL. *)
Fixpoint c_str (s : string) : string :=
  match s with
  | EmptyString => EmptyString
  | String c s' =>
      if Ascii.eqb c Ascii.zero then EmptyString else String c (c_str s')
  end.

(** [a.compare(b)]: negative, zero or positive. *)
Definition compare (a b : string) : Z :=
  match String.compare a b with
  | Eq => 0
  | Lt => -1
  | Gt => 1
  end.

(** [v[i]] on a [std::vector]: undefined behaviour out of range. *)
Definition subscript {A : Type} (v : list A) (i : nat) : Res A :=
  match nth_error v i with
  | Some x => Ok x
  | None => Undefined
  end.

(** [v.push_back(x)]. *)
Definition push_back {A : Type} (v : list A) (x : A) : list A := v ++ [x].

(** [for (size_t i = start; i < start + count; i++) body], the body acting
    on the local variables [acc]. *)
Fixpoint for_loop {A : Type} (count : nat) (i : nat)
    (body : nat -> A -> Res A) (acc : A) : Res A :=
  match count with
  | O => Ok acc
  | S count' =>
      acc' <~ body i acc ;;
      for_loop count' (S i) body acc'
  end.

(* ================================================================== *)
(** ** Processor::state_callback (lines 114-123) *)

Definition state_callback (msg : StringMsg.t) : M unit :=
  let requested_state := c_str (StringMsg.data msg) in
  if compare requested_state "shutdown" =? 0 then
    rclcpp_shutdown
  else
    RCLCPP_WARN "Invalid state requested.".

(* ================================================================== *)
(** ** Processor::topic_callback (lines 125-240) *)

Variable ort : Sessions.

(** A default-constructed [epd_msgs::msg::EPDObjectDetection]. *)
Definition empty_detection : EPDObjectDetectionMsg :=
  {| class_indices := []; msg_scores := []; msg_bboxes := []; msg_masks := [] |}.

(** Lines 189-194 and 217-222: the RegionOfInterest built from box [b]. *)
Definition roi_of (b : BBox) : RegionOfInterest.t :=
  {| RegionOfInterest.x_offset := to_uint32 (coord b 0);
     RegionOfInterest.y_offset := to_uint32 (coord b 1);
     RegionOfInterest.width := to_uint32 (coord b 2 - coord b 0);
     RegionOfInterest.height := to_uint32 (coord b 3 - coord b 1);
     RegionOfInterest.do_rectify := false |}.

(** Lines 185-195: one iteration of the P2 loop. *)
Definition p2_body (result : EPDObjectDetection) (i : nat)
    (output_msg : EPDObjectDetectionMsg) : Res EPDObjectDetectionMsg :=
  ci <~ subscript (classIndices result) i ;;
  sc <~ subscript (scores result) i ;;
  b <~ subscript (bboxes result) i ;;
  let roi := roi_of b in
  Ok {| class_indices := push_back (class_indices output_msg) ci;
        msg_scores := push_back (msg_scores output_msg) sc;
        msg_bboxes := push_back (msg_bboxes output_msg) roi;
        msg_masks := msg_masks output_msg |}.

(** Lines 213-227: one iteration of the P3 loop. *)
Definition p3_body (result : EPDObjectDetection) (i : nat)
    (output_msg : EPDObjectDetectionMsg) : Res EPDObjectDetectionMsg :=
  ci <~ subscript (classIndices result) i ;;
  sc <~ subscript (scores result) i ;;
  b <~ subscript (bboxes result) i ;;
  let roi := roi_of b in
  m <~ subscript (masks result) i ;;
  let mask := toImageMsg "32FC1" m in
  Ok {| class_indices := push_back (class_indices output_msg) ci;
        msg_scores := push_back (msg_scores output_msg) sc;
        msg_bboxes := push_back (msg_bboxes output_msg) roi;
        msg_masks := push_back (msg_masks output_msg) mask |}.

(** Lines 142-156: one-shot initialisation, or the geometry check. *)
Definition bootstrap (img : Mat) : M unit :=
  a <- agent ;;
  if negb (isInit a) then
    call (CallSetFrameDimension (cols img) (rows img))
         (setFrameDimension (cols img) (rows img)) ;;
    call CallInitORTSessionHandler initORTSessionHandler ;;
    call (CallSetInitBoolean true) (setInitBoolean true)
  else
    a <- agent ;;
    if negb (getWidth a =? cols img) && negb (getHeight a =? rows img) then
      throw (runtime_error "Input camera changed. Please restart.")
    else
      ret tt.

(** Lines 161-234: the switch on the precision level. *)
Definition dispatch (img : Mat) : M unit :=
  a <- agent ;;
  match precision_level a with
  | 1 =>
      names <- lift (of_ext (p1_infer ort img)) ;;
      let output_msg := {| EPDImageClassification.object_names := names |} in
      publish p1_pub (ClassificationPayload output_msg)
  | 2 =>
      if isVisualize a then
        resultImg <- lift (of_ext (p2_infer_visualize ort img)) ;;
        let output_msg := toImageMsg "bgr8" resultImg in
        publish visual_pub (ImagePayload output_msg)
      else
        result <- lift (of_ext (p2_infer_action ort img)) ;;
        output_msg <-
          lift (for_loop (data_size result) 0 (p2_body result) empty_detection) ;;
        publish p2_pub (DetectionPayload output_msg)
  | 3 =>
      if isVisualize a then
        resultImg <- lift (of_ext (p3_infer_visualize ort img)) ;;
        let output_msg := toImageMsg "bgr8" resultImg in
        publish visual_pub (ImagePayload output_msg)
      else
        result <- lift (of_ext (p3_infer_action ort img)) ;;
        output_msg <-
          lift (for_loop (data_size result) 0 (p3_body result) empty_detection) ;;
        publish p3_pub (DetectionPayload output_msg)
  | _ => ret tt
  end.

(** The format string of the latency line (the printed value is a
    floating-point quotient of wall-clock readings and is not modelled). *)
Definition fps_format : string :=
  ("[-FPS-]= %f" ++ String "010" EmptyString)%string.

(** Lines 138-239: what happens to a frame that passed the empty check. *)
Definition process_frame (msg : Image.t) : M unit :=
  img <- lift (of_ext (toCvCopy msg "bgr8")) ;;
  bootstrap img ;;
  dispatch img ;;
  RCLCPP_INFO fps_format.

Definition topic_callback (msg : Image.t) : M unit :=
  if Image.height msg =? 0 then
    RCLCPP_WARN "Input image empty. Discarding."
  else
    process_frame msg.

(** Callbacks run to completion one after another; a callback that does
    not return normally ends the run (the exception leaves the executor). *)
Fixpoint run_frames (msgs : list Image.t) : M unit :=
  match msgs with
  | [] => ret tt
  | msg :: rest => topic_callback msg ;; run_frames rest
  end.

End WithBackend.

Arguments Ok {backend A} a.
Arguments Throw {backend A} e.
Arguments Undefined {backend A}.

Notation "x <- c ;; k" := (bind c (fun x => k))
  (at level 61, c at next level, right associativity).
Notation "c ;; k" := (bind c (fun _ => k))
  (at level 61, right associativity).
Notation "x <~ c ;; k" := (rbind c (fun x => k))
  (at level 61, c at next level, right associativity).

Arguments fps_format : simpl never.
Arguments to_uint32 : simpl never.

(* ================================================================== *)
(** ** Reading a trace *)

Section Traces.
Context {backend : Backend}.

(** [w] with [evs] appended to its trace. *)
Definition add_events (evs : list Event) (w : World) : World :=
  {| ortAgent_ := ortAgent_ w;
     rclcpp_ok := rclcpp_ok w;
     trace := trace w ++ evs |}.

(** The events a computation appends when run from [w]. *)
Definition emitted {A : Type} (c : M A) (w : World) : list Event :=
  skipn (List.length (trace w)) (trace (snd (c w))).

(** The publishers that were used, in order. *)
Fixpoint published (evs : list Event) : list Publisher :=
  match evs with
  | [] => []
  | EvPublish p _ :: rest => p :: published rest
  | _ :: rest => published rest
  end.

(** The detection messages that were published, in order. *)
Fixpoint detections (evs : list Event) : list EPDObjectDetectionMsg :=
  match evs with
  | [] => []
  | EvPublish _ (DetectionPayload m) :: rest => m :: detections rest
  | _ :: rest => detections rest
  end.

(** The mutating container calls, in order. *)
Fixpoint agent_calls (evs : list Event) : list AgentCall :=
  match evs with
  | [] => []
  | EvAgent c :: rest => c :: agent_calls rest
  | _ :: rest => agent_calls rest
  end.

(** The warnings, in order. *)
Fixpoint warnings (evs : list Event) : list string :=
  match evs with
  | [] => []
  | EvWarn s :: rest => s :: warnings rest
  | _ :: rest => warnings rest
  end.

(** The detector result has at least [data_size] entries in every vector
    the loop subscripts (Section 3: all lengths equal N). *)
Definition covers (with_masks : bool) (r : EPDObjectDetection) : Prop :=
  (data_size r <= List.length (classIndices r))%nat /\
  (data_size r <= List.length (scores r))%nat /\
  (data_size r <= List.length (bboxes r))%nat /\
  (with_masks = true -> (data_size r <= List.length (masks r))%nat).

(** The geometry check of line 153 lets the frame through. *)
Definition same_camera (a : EPDContainer) (img : Mat) : Prop :=
  getWidth a = cols img \/ getHeight a = rows img.

(** End of a step that only reads the container: the events are appended
    when the step returns; a throw or undefined behaviour leaves the node
    state as it was. *)
Definition finish (r : Res (list Event)) (w : World) : Res unit * World :=
  match r with
  | Ok evs => (Ok tt, add_events evs w)
  | Throw e => (Throw e, w)
  | Undefined => (Undefined, w)
  end.

(** What the switch can hand to [finish]: never the node's own runtime
    error, and on return at most one publication and no other event. *)
Definition quiet (r : Res (list Event)) : Prop :=
  (forall s, r <> Throw (runtime_error s)) /\
  (forall evs, r = Ok evs ->
     agent_calls evs = [] /\ warnings evs = [] /\
     (List.length (published evs) <= 1)%nat).

(** The detector result cut to its first [data_size] items and projected
    to message form, without masks (P2) and with masks (P3). *)
Definition p2_projection (r : EPDObjectDetection) : EPDObjectDetectionMsg :=
  {| class_indices := firstn (data_size r) (classIndices r);
     msg_scores := firstn (data_size r) (scores r);
     msg_bboxes := map roi_of (firstn (data_size r) (bboxes r));
     msg_masks := [] |}.

Definition p3_projection (r : EPDObjectDetection) : EPDObjectDetectionMsg :=
  {| class_indices := firstn (data_size r) (classIndices r);
     msg_scores := firstn (data_size r) (scores r);
     msg_bboxes := map roi_of (firstn (data_size r) (bboxes r));
     msg_masks := map (toImageMsg "32FC1") (firstn (data_size r) (masks r)) |}.

(** The three container calls of the one-shot initialisation. *)
Definition init_calls (img : Mat) : list AgentCall :=
  [CallSetFrameDimension (cols img) (rows img);
   CallInitORTSessionHandler;
   CallSetInitBoolean true].

(** The container after the one-shot initialisation on [img]. *)
Definition initialised_for (img : Mat) (a : EPDContainer) : EPDContainer :=
  setInitBoolean true
    (initORTSessionHandler (setFrameDimension (cols img) (rows img) a)).

(** The three ways lines 142-156 can end, as a relation between the node
    before, the outcome and the node after. *)
Inductive bootstrapped (img : Mat) (w : World) : Res unit -> World -> Prop :=
| boot_first :
    isInit (ortAgent_ w) = false ->
    bootstrapped img w (Ok tt)
      {| ortAgent_ := initialised_for img (ortAgent_ w);
         rclcpp_ok := rclcpp_ok w;
         trace := trace w ++ map EvAgent (init_calls img) |}
| boot_same :
    isInit (ortAgent_ w) = true ->
    same_camera (ortAgent_ w) img ->
    bootstrapped img w (Ok tt) w
| boot_changed :
    isInit (ortAgent_ w) = true ->
    getWidth (ortAgent_ w) <> cols img ->
    getHeight (ortAgent_ w) <> rows img ->
    bootstrapped img w
      (Throw (runtime_error "Input camera changed. Please restart.")) w.

(** The events of the one-shot initialisation, if it is still due. *)
Definition bootstrap_events (img : Mat) (a : EPDContainer) : list Event :=
  if isInit a then [] else map EvAgent (init_calls img).

(** The node once lines 142-146 have run without a throw. *)
Definition after_bootstrap (img : Mat) (w : World) : World :=
  {| ortAgent_ :=
       if isInit (ortAgent_ w) then ortAgent_ w
       else initialised_for img (ortAgent_ w);
     rclcpp_ok := rclcpp_ok w;
     trace := trace w ++ bootstrap_events img (ortAgent_ w) |}.

(** A step of the callback after which the latency line is logged. *)
Definition then_fps (r : Res unit * World) : Res unit * World :=
  match r with
  | (Ok _, w) => (Ok tt, add_events [EvInfo fps_format] w)
  | other => other
  end.

End Traces.

(* ================================================================== *)
(** ** A test double for the collaborators

    Matrices are reduced to their geometry (cols, rows), scores are
    per-mille integers, and the sessions return fixed answers. *)

Definition stub_backend : Backend :=
  {| Mat := Z * Z;
     cols := fst;
     rows := snd;
     Score := Z;
     ExtError := string;
     toCvCopy := fun msg _ => inr (Image.width msg, Image.height msg);
     toImageMsg := fun enc m =>
       {| Image.height := snd m; Image.width := fst m;
          Image.encoding := enc; Image.data := [] |} |}.

(** Two detections without masks. *)
Definition stub_p2_result : @EPDObjectDetection stub_backend :=
  @mkResult stub_backend 2 [3; 7] [900; 400]
    [(10, 20, 110, 220); (5, 5, 15, 25)] [].

(** One detection with a 32x32 mask. *)
Definition stub_p3_result : @EPDObjectDetection stub_backend :=
  @mkResult stub_backend 1 [4] [750] [(0, 0, 32, 32)] [(32, 32)].

Definition stub_sessions : @Sessions stub_backend :=
  {| p1_infer := fun _ => inr ["cup"; "book"];
     p2_infer_visualize := fun img => inr img;
     p2_infer_action := fun _ => inr stub_p2_result;
     p3_infer_visualize := fun img => inr img;
     p3_infer_action := fun _ => inr stub_p3_result |}.

(** A freshly constructed node at precision level [pl]. *)
Definition fresh_node (pl : Z) (visualize : bool) : @World stub_backend :=
  {| ortAgent_ :=
       {| initialized := false; width := 0; height := 0;
          precision_level := pl; visualize_mode := visualize;
          session_handle := None |};
     rclcpp_ok := true;
     trace := [] |}.

(** A node whose session was initialised for a 640x480 camera. *)
Definition running_node (pl : Z) (visualize : bool) : @World stub_backend :=
  {| ortAgent_ :=
       {| initialized := true; width := 640; height := 480;
          precision_level := pl; visualize_mode := visualize;
          session_handle := Some (640, 480) |};
     rclcpp_ok := true;
     trace := [] |}.

Definition frame (w h : Z) : Image.t :=
  {| Image.height := h; Image.width := w;
     Image.encoding := "bgr8"; Image.data := [] |}.

(** A control payload that differs from "shutdown" only after a NUL
    character: the nine characters s,h,u,t,d,o,w,n,NUL followed by "now". *)
Definition nul_payload_msg : StringMsg.t :=
  {| StringMsg.data := ("shutdown" ++ String Ascii.zero "now")%string |}.

(* ================================================================== *)
(** ** Sequences of callbacks *)

(** A message arriving on one of the two subscriptions the constructor
    creates (lines 89-97): an image on /processor/image_input, bound to
    [topic_callback], or a string on /processor/state_input, bound to
    [state_callback]. *)
Inductive Incoming : Type :=
| image_input (msg : Image.t)
| state_input (msg : StringMsg.t).

Section Wiring.
Context {backend : Backend}.
Variable ort : Sessions.

(** The callback bound to the subscription is run on the message. *)
Definition handle (i : Incoming) : M unit :=
  match i with
  | image_input msg => topic_callback ort msg
  | state_input msg => state_callback msg
  end.

(** Any sequence of callback invocations, each run to completion; an
    invocation that does not return normally ends the sequence. *)
Fixpoint run_callbacks (ins : list Incoming) : M unit :=
  match ins with
  | [] => ret tt
  | i :: rest => handle i ;; run_callbacks rest
  end.

(** The frames among the incoming messages, in order. *)
Fixpoint frames_of (ins : list Incoming) : list Image.t :=
  match ins with
  | [] => []
  | image_input msg :: rest => msg :: frames_of rest
  | state_input _ :: rest => frames_of rest
  end.

(** The test of line 118 on a control message. *)
Definition reads_shutdown (msg : StringMsg.t) : bool :=
  compare (c_str (StringMsg.data msg)) "shutdown" =? 0.

(** Some control message of the sequence passes the test of line 118. *)
Fixpoint shutdown_requested (ins : list Incoming) : bool :=
  match ins with
  | [] => false
  | image_input _ :: rest => shutdown_requested rest
  | state_input msg :: rest => reads_shutdown msg || shutdown_requested rest
  end.

(** The latency lines, in order. *)
Fixpoint infos (evs : list Event) : list string :=
  match evs with
  | [] => []
  | EvInfo s :: rest => s :: infos rest
  | _ :: rest => infos rest
  end.

(** The publications with their payloads, in order. *)
Fixpoint publications (evs : list Event) : list (Publisher * Payload) :=
  match evs with
  | [] => []
  | EvPublish p m :: rest => (p, m) :: publications rest
  | _ :: rest => publications rest
  end.

(** The publisher the switch of lines 162-234 ends on, if any. *)
Definition route (a : EPDContainer) : option Publisher :=
  match precision_level a with
  | 1 => Some p1_pub
  | 2 => Some (if isVisualize a then visual_pub else p2_pub)
  | 3 => Some (if isVisualize a then visual_pub else p3_pub)
  | _ => None
  end.

(** Two sets of sessions answer alike at the one entry point the switch
    calls for this container. *)
Definition same_selected_session (ort1 ort2 : Sessions) (a : EPDContainer)
    (img : Mat) : Prop :=
  match precision_level a with
  | 1 => p1_infer ort1 img = p1_infer ort2 img
  | 2 =>
      if isVisualize a
      then p2_infer_visualize ort1 img = p2_infer_visualize ort2 img
      else p2_infer_action ort1 img = p2_infer_action ort2 img
  | 3 =>
      if isVisualize a
      then p3_infer_visualize ort1 img = p3_infer_visualize ort2 img
      else p3_infer_action ort1 img = p3_infer_action ort2 img
  | _ => True
  end.

(** The entry point the switch calls for this container throws [e]. *)
Definition selected_session_throws (a : EPDContainer) (img : Mat)
    (e : ExtError) : Prop :=
  match precision_level a with
  | 1 => p1_infer ort img = inl e
  | 2 =>
      if isVisualize a
      then p2_infer_visualize ort img = inl e
      else p2_infer_action ort img = inl e
  | 3 =>
      if isVisualize a
      then p3_infer_visualize ort img = inl e
      else p3_infer_action ort img = inl e
  | _ => False
  end.

End Wiring.

(** Sessions whose structured P2 entry point fails. *)
Definition faulty_sessions : @Sessions stub_backend :=
  {| p1_infer := fun _ => inr ["cup"; "book"];
     p2_infer_visualize := fun img => inr img;
     p2_infer_action := fun _ =>
       inl ("onnxruntime failure" : @ExtError stub_backend);
     p3_infer_visualize := fun img => inr img;
     p3_infer_action := fun _ => inr stub_p3_result |}.

(** A detection whose box starts left of and above the image. *)
Definition stub_offscreen_result : @EPDObjectDetection stub_backend :=
  @mkResult stub_backend 1 [1] [500] [(-5, -7, 10, 20)] [].

(** Sessions whose structured P2 entry point returns that detection. *)
Definition offscreen_sessions : @Sessions stub_backend :=
  {| p1_infer := fun _ => inr [];
     p2_infer_visualize := fun img => inr img;
     p2_infer_action := fun _ => inr stub_offscreen_result;
     p3_infer_visualize := fun img => inr img;
     p3_infer_action := fun _ => inr stub_p3_result |}.

(** A detector result that announces no item. *)
Definition stub_empty_result : @EPDObjectDetection stub_backend :=
  @mkResult stub_backend 0 [] [] [] [].

(** Sessions whose structured P2 entry point detects nothing. *)
Definition idle_sessions : @Sessions stub_backend :=
  {| p1_infer := fun _ => inr [];
     p2_infer_visualize := fun img => inr img;
     p2_infer_action := fun _ => inr stub_empty_result;
     p3_infer_visualize := fun img => inr img;
     p3_infer_action := fun _ => inr stub_empty_result |}.

(* ================================================================== *)
(** * Properties *)

(** ** Lists and the C++ library model *)

Lemma skipn_length_app {A : Type} (l r : list A) :
  skipn (List.length l) (l ++ r) = r.
Proof.
  induction l as [|x l IH]; simpl; auto.
Qed.

Lemma skipn_nth_error {A : Type} (l : list A) (i : nat) (x : A) :
  nth_error l i = Some x -> skipn i l = x :: skipn (S i) l.
Proof.
  revert i; induction l as [|y l IH]; intros [|i] H; simpl in *;
    try discriminate.
  - now inversion H.
  - now apply IH.
Qed.

Lemma firstn_skipn_step {A : Type} (l : list A) (n i : nat) (x : A) :
  nth_error l i = Some x ->
  firstn (S n) (skipn i l) = x :: firstn n (skipn (S i) l).
Proof.
  intros H. now rewrite (skipn_nth_error _ _ _ H).
Qed.

Lemma nth_error_firstn_lt {A : Type} (l : list A) (n i : nat) :
  (i < n)%nat -> nth_error (firstn n l) i = nth_error l i.
Proof.
  revert n i; induction l as [|x l IH]; intros [|n] [|i] H; simpl;
    try reflexivity; try lia.
  apply IH; lia.
Qed.

Lemma c_str_no_nul (s : string) :
  (forall c, In c (list_ascii_of_string s) -> c <> Ascii.zero) ->
  c_str s = s.
Proof.
  induction s as [|c s IH]; simpl; intros H; auto.
  destruct (Ascii.eqb_spec c Ascii.zero) as [E|E].
  - exfalso. apply (H c); auto.
  - f_equal. apply IH. intros d Hd. apply H. now right.
Qed.

Lemma compare_zero_iff (a b : string) : compare a b = 0 <-> a = b.
Proof.
  unfold compare; split.
  - destruct (String.compare a b) eqn:E; try discriminate.
    intros _. now apply String.compare_eq_iff.
  - intros ->.
    assert (R : String.compare b b = Eq).
    { induction b as [|c b IH]; simpl; auto.
      assert (Ascii.compare c c = Eq) as ->; auto.
      pose proof (Ascii.compare_antisym c c) as Hc.
      destruct (Ascii.compare c c); simpl in Hc; congruence. }
    now rewrite R.
Qed.

Section Projector.
Context {backend : Backend}.

Lemma subscript_Ok {A : Type} (v : list A) (i : nat) (x : A) :
  subscript v i = Ok x <-> nth_error v i = Some x.
Proof.
  unfold subscript; destruct (nth_error v i); split; intros H;
    inversion H; auto.
Qed.

Lemma subscript_in_range {A : Type} (v : list A) (i : nat) :
  (i < List.length v)%nat -> exists x, subscript v i = Ok x.
Proof.
  intros H. unfold subscript.
  destruct (nth_error v i) eqn:E; eauto.
  apply nth_error_None in E. lia.
Qed.

(** Loop invariant of the P2 projector: after [n] iterations from index
    [i] the message holds what it held before, followed by items
    [i .. i+n-1] of the detector result in order. *)
Lemma p2_loop_closed (r : EPDObjectDetection) :
  forall n i acc m,
    for_loop n i (p2_body r) acc = Ok m ->
    m = {| class_indices :=
             class_indices acc ++ firstn n (skipn i (classIndices r));
           msg_scores := msg_scores acc ++ firstn n (skipn i (scores r));
           msg_bboxes :=
             msg_bboxes acc ++ map roi_of (firstn n (skipn i (bboxes r)));
           msg_masks := msg_masks acc |}.
Proof.
  induction n as [|n IH]; intros i acc m H; simpl in H.
  - inversion H; subst. destruct m; simpl. now rewrite !app_nil_r.
  - destruct (p2_body r i acc) as [acc'| |] eqn:B; simpl in H;
      try discriminate.
    unfold p2_body in B.
    destruct (subscript (classIndices r) i) as [ci| |] eqn:E1; simpl in B;
      try discriminate.
    destruct (subscript (scores r) i) as [sc| |] eqn:E2; simpl in B;
      try discriminate.
    destruct (subscript (bboxes r) i) as [b| |] eqn:E3; simpl in B;
      try discriminate.
    apply subscript_Ok in E1, E2, E3.
    inversion B; subst acc'; clear B.
    apply IH in H. subst m. unfold push_back.
    rewrite (firstn_skipn_step _ n _ _ E1), (firstn_skipn_step _ n _ _ E2),
      (firstn_skipn_step _ n _ _ E3).
    simpl. rewrite <- !app_assoc. reflexivity.
Qed.

Lemma p3_loop_closed (r : EPDObjectDetection) :
  forall n i acc m,
    for_loop n i (p3_body r) acc = Ok m ->
    m = {| class_indices :=
             class_indices acc ++ firstn n (skipn i (classIndices r));
           msg_scores := msg_scores acc ++ firstn n (skipn i (scores r));
           msg_bboxes :=
             msg_bboxes acc ++ map roi_of (firstn n (skipn i (bboxes r)));
           msg_masks :=
             msg_masks acc ++
             map (toImageMsg "32FC1") (firstn n (skipn i (masks r))) |}.
Proof.
  induction n as [|n IH]; intros i acc m H; simpl in H.
  - inversion H; subst. destruct m; simpl. now rewrite !app_nil_r.
  - destruct (p3_body r i acc) as [acc'| |] eqn:B; simpl in H;
      try discriminate.
    unfold p3_body in B.
    destruct (subscript (classIndices r) i) as [ci| |] eqn:E1; simpl in B;
      try discriminate.
    destruct (subscript (scores r) i) as [sc| |] eqn:E2; simpl in B;
      try discriminate.
    destruct (subscript (bboxes r) i) as [b| |] eqn:E3; simpl in B;
      try discriminate.
    destruct (subscript (masks r) i) as [k| |] eqn:E4; simpl in B;
      try discriminate.
    apply subscript_Ok in E1, E2, E3, E4.
    inversion B; subst acc'; clear B.
    apply IH in H. subst m. unfold push_back.
    rewrite (firstn_skipn_step _ n _ _ E1), (firstn_skipn_step _ n _ _ E2),
      (firstn_skipn_step _ n _ _ E3), (firstn_skipn_step _ n _ _ E4).
    simpl. rewrite <- !app_assoc. reflexivity.
Qed.

(** The loops run to completion when the vectors are long enough. *)
Lemma p2_loop_total (r : EPDObjectDetection) :
  forall n i acc,
    (i + n <= List.length (classIndices r))%nat ->
    (i + n <= List.length (scores r))%nat ->
    (i + n <= List.length (bboxes r))%nat ->
    exists m, for_loop n i (p2_body r) acc = Ok m.
Proof.
  induction n as [|n IH]; intros i acc H1 H2 H3; simpl.
  - eauto.
  - destruct (subscript_in_range (classIndices r) i) as [ci E1]; [lia|].
    destruct (subscript_in_range (scores r) i) as [sc E2]; [lia|].
    destruct (subscript_in_range (bboxes r) i) as [b E3]; [lia|].
    unfold p2_body at 1. rewrite E1, E2, E3. simpl.
    apply IH; lia.
Qed.

Lemma p3_loop_total (r : EPDObjectDetection) :
  forall n i acc,
    (i + n <= List.length (classIndices r))%nat ->
    (i + n <= List.length (scores r))%nat ->
    (i + n <= List.length (bboxes r))%nat ->
    (i + n <= List.length (masks r))%nat ->
    exists m, for_loop n i (p3_body r) acc = Ok m.
Proof.
  induction n as [|n IH]; intros i acc H1 H2 H3 H4; simpl.
  - eauto.
  - destruct (subscript_in_range (classIndices r) i) as [ci E1]; [lia|].
    destruct (subscript_in_range (scores r) i) as [sc E2]; [lia|].
    destruct (subscript_in_range (bboxes r) i) as [b E3]; [lia|].
    destruct (subscript_in_range (masks r) i) as [k E4]; [lia|].
    unfold p3_body at 1. rewrite E1, E2, E3, E4. simpl.
    apply IH; lia.
Qed.

(** Subscripting and appending throw nothing, so neither do the loops. *)
Lemma for_loop_no_throw {A : Type} (body : nat -> A -> Res A) :
  (forall i acc e, body i acc <> Throw e) ->
  forall n i acc e, for_loop n i body acc <> Throw e.
Proof.
  intros Hb. induction n as [|n IH]; intros i acc e; simpl.
  - discriminate.
  - destruct (body i acc) as [acc'|e'|] eqn:B; simpl.
    + apply IH.
    + exfalso. exact (Hb _ _ _ B).
    + discriminate.
Qed.

Lemma p2_body_no_throw (r : EPDObjectDetection) i acc e :
  p2_body r i acc <> Throw e.
Proof.
  unfold p2_body, subscript.
  destruct (nth_error (classIndices r) i); simpl; try discriminate.
  destruct (nth_error (scores r) i); simpl; try discriminate.
  destruct (nth_error (bboxes r) i); simpl; discriminate.
Qed.

Lemma p3_body_no_throw (r : EPDObjectDetection) i acc e :
  p3_body r i acc <> Throw e.
Proof.
  unfold p3_body, subscript.
  destruct (nth_error (classIndices r) i); simpl; try discriminate.
  destruct (nth_error (scores r) i); simpl; try discriminate.
  destruct (nth_error (bboxes r) i); simpl; try discriminate.
  destruct (nth_error (masks r) i); simpl; discriminate.
Qed.

Lemma nth_error_Some_lt {A : Type} (l : list A) (i : nat) (x : A) :
  nth_error l i = Some x -> (i < List.length l)%nat.
Proof.
  intros H. apply nth_error_Some. congruence.
Qed.

(** A loop that ran [n > 0] iterations from [i] found every vector long
    enough. *)
Lemma p2_loop_covers (r : EPDObjectDetection) :
  forall n i acc m,
    for_loop n i (p2_body r) acc = Ok m ->
    (0 < n)%nat ->
    (i + n <= List.length (classIndices r))%nat /\
    (i + n <= List.length (scores r))%nat /\
    (i + n <= List.length (bboxes r))%nat.
Proof.
  induction n as [|n IH]; intros i acc m H Hn; [lia|].
  simpl in H.
  destruct (p2_body r i acc) as [acc'| |] eqn:B; simpl in H;
    try discriminate.
  unfold p2_body in B.
  destruct (subscript (classIndices r) i) as [ci| |] eqn:E1; simpl in B;
    try discriminate.
  destruct (subscript (scores r) i) as [sc| |] eqn:E2; simpl in B;
    try discriminate.
  destruct (subscript (bboxes r) i) as [b| |] eqn:E3; simpl in B;
    try discriminate.
  apply subscript_Ok, nth_error_Some_lt in E1, E2, E3.
  destruct n as [|n]; [lia|].
  destruct (IH _ _ _ H) as (L1 & L2 & L3); lia.
Qed.

Lemma p3_loop_covers (r : EPDObjectDetection) :
  forall n i acc m,
    for_loop n i (p3_body r) acc = Ok m ->
    (0 < n)%nat ->
    (i + n <= List.length (classIndices r))%nat /\
    (i + n <= List.length (scores r))%nat /\
    (i + n <= List.length (bboxes r))%nat /\
    (i + n <= List.length (masks r))%nat.
Proof.
  induction n as [|n IH]; intros i acc m H Hn; [lia|].
  simpl in H.
  destruct (p3_body r i acc) as [acc'| |] eqn:B; simpl in H;
    try discriminate.
  unfold p3_body in B.
  destruct (subscript (classIndices r) i) as [ci| |] eqn:E1; simpl in B;
    try discriminate.
  destruct (subscript (scores r) i) as [sc| |] eqn:E2; simpl in B;
    try discriminate.
  destruct (subscript (bboxes r) i) as [b| |] eqn:E3; simpl in B;
    try discriminate.
  destruct (subscript (masks r) i) as [k| |] eqn:E4; simpl in B;
    try discriminate.
  apply subscript_Ok, nth_error_Some_lt in E1, E2, E3, E4.
  destruct n as [|n]; [lia|].
  destruct (IH _ _ _ H) as (L1 & L2 & L3 & L4); lia.
Qed.

(** The whole P2 loop of lines 184-196: it returns exactly when the
    vectors cover [data_size], and then with the projection. *)
Lemma p2_loop_spec (r : EPDObjectDetection) (m : EPDObjectDetectionMsg) :
  for_loop (data_size r) 0 (p2_body r) empty_detection = Ok m <->
  covers false r /\ m = p2_projection r.
Proof.
  split.
  - intros H. split.
    + unfold covers. destruct (data_size r) as [|n] eqn:N.
      * repeat split; try lia; try discriminate.
      * destruct (p2_loop_covers r _ _ _ _ H) as (L1 & L2 & L3); [lia|].
        repeat split; try lia; try discriminate.
    + apply p2_loop_closed in H. subst m. reflexivity.
  - intros [(C1 & C2 & C3 & _) ->].
    destruct (p2_loop_total r (data_size r) 0 empty_detection) as [m' H];
      try (simpl; lia).
    rewrite H. f_equal. apply p2_loop_closed in H. subst m'. reflexivity.
Qed.

(** The whole P3 loop of lines 212-228. *)
Lemma p3_loop_spec (r : EPDObjectDetection) (m : EPDObjectDetectionMsg) :
  for_loop (data_size r) 0 (p3_body r) empty_detection = Ok m <->
  covers true r /\ m = p3_projection r.
Proof.
  split.
  - intros H. split.
    + unfold covers. destruct (data_size r) as [|n] eqn:N.
      * repeat split; try lia.
      * destruct (p3_loop_covers r _ _ _ _ H) as (L1 & L2 & L3 & L4); [lia|].
        repeat split; try lia.
    + apply p3_loop_closed in H. subst m. reflexivity.
  - intros [(C1 & C2 & C3 & C4) ->]. specialize (C4 eq_refl).
    destruct (p3_loop_total r (data_size r) 0 empty_detection) as [m' H];
      try (simpl; lia).
    rewrite H. f_equal. apply p3_loop_closed in H. subst m'. reflexivity.
Qed.

End Projector.

(* ================================================================== *)
(** ** Traces *)

Section TraceFacts.
Context {backend : Backend}.

Lemma add_events_nil (w : World) : add_events [] w = w.
Proof.
  destruct w; unfold add_events; simpl. now rewrite app_nil_r.
Qed.

Lemma add_events_app (evs1 evs2 : list Event) (w : World) :
  add_events evs2 (add_events evs1 w) = add_events (evs1 ++ evs2) w.
Proof.
  unfold add_events; simpl. now rewrite app_assoc.
Qed.

Lemma emitted_extends {A : Type} (c : M A) (w : World) (evs : list Event) :
  trace (snd (c w)) = trace w ++ evs -> emitted c w = evs.
Proof.
  unfold emitted. intros ->. apply skipn_length_app.
Qed.

Lemma published_app (l r : list Event) :
  published (l ++ r) = published l ++ published r.
Proof.
  induction l as [|[] l IH]; simpl; congruence.
Qed.

Lemma detections_app (l r : list Event) :
  detections (l ++ r) = detections l ++ detections r.
Proof.
  induction l as [|[t|f|p [m|m|m]|c|] l IH]; simpl; congruence.
Qed.

Lemma agent_calls_app (l r : list Event) :
  agent_calls (l ++ r) = agent_calls l ++ agent_calls r.
Proof.
  induction l as [|[] l IH]; simpl; congruence.
Qed.

Lemma warnings_app (l r : list Event) :
  warnings (l ++ r) = warnings l ++ warnings r.
Proof.
  induction l as [|[] l IH]; simpl; congruence.
Qed.

Lemma agent_calls_map (cs : list AgentCall) :
  agent_calls (map EvAgent cs) = cs.
Proof.
  induction cs as [|c cs IH]; simpl; congruence.
Qed.

Lemma published_map_agent (cs : list AgentCall) :
  published (map EvAgent cs) = [].
Proof.
  induction cs; simpl; auto.
Qed.

Lemma detections_map_agent (cs : list AgentCall) :
  detections (map EvAgent cs) = [].
Proof.
  induction cs; simpl; auto.
Qed.

Lemma warnings_map_agent (cs : list AgentCall) :
  warnings (map EvAgent cs) = [].
Proof.
  induction cs; simpl; auto.
Qed.

End TraceFacts.

(* ================================================================== *)
(** ** The frame callback, step by step *)

Section Callback.
Context {backend : Backend}.
Variable ort : Sessions.

(** Lines 142-156 against their relational reading. *)
Lemma bootstrap_spec (img : Mat) (w : World) :
  bootstrapped img w (fst (bootstrap img w)) (snd (bootstrap img w)).
Proof.
  unfold bootstrap, bind, agent.
  destruct (isInit (ortAgent_ w)) eqn:I; simpl.
  - destruct (getWidth (ortAgent_ w) =? cols img) eqn:Ew; simpl.
    + apply boot_same; auto. left. now apply Z.eqb_eq.
    + destruct (getHeight (ortAgent_ w) =? rows img) eqn:Eh; simpl.
      * apply boot_same; auto. right. now apply Z.eqb_eq.
      * apply boot_changed; auto; now apply Z.eqb_neq.
  - unfold call; simpl. rewrite <- !app_assoc. simpl.
    now apply boot_first.
Qed.

(** The switch, branch by branch. *)
Lemma dispatch_p1 (img : Mat) (w : World) :
  precision_level (ortAgent_ w) = 1 ->
  dispatch ort img w =
  finish (names <~ of_ext (p1_infer ort img) ;;
          Ok [EvPublish p1_pub
                (ClassificationPayload
                   {| EPDImageClassification.object_names := names |})]) w.
Proof.
  intros H. unfold dispatch, bind, agent. rewrite H.
  destruct (p1_infer ort img); reflexivity.
Qed.

Lemma dispatch_p2_visualize (img : Mat) (w : World) :
  precision_level (ortAgent_ w) = 2 ->
  isVisualize (ortAgent_ w) = true ->
  dispatch ort img w =
  finish (resultImg <~ of_ext (p2_infer_visualize ort img) ;;
          Ok [EvPublish visual_pub
                (ImagePayload (toImageMsg "bgr8" resultImg))]) w.
Proof.
  intros H V. unfold dispatch, bind, agent. rewrite H, V.
  destruct (p2_infer_visualize ort img); reflexivity.
Qed.

Lemma dispatch_p2_action (img : Mat) (w : World) :
  precision_level (ortAgent_ w) = 2 ->
  isVisualize (ortAgent_ w) = false ->
  dispatch ort img w =
  finish (result <~ of_ext (p2_infer_action ort img) ;;
          output_msg <~ for_loop (data_size result) 0 (p2_body result)
                          empty_detection ;;
          Ok [EvPublish p2_pub (DetectionPayload output_msg)]) w.
Proof.
  intros H V. unfold dispatch, bind, agent. rewrite H, V.
  destruct (p2_infer_action ort img) as [e|r]; simpl; auto.
  unfold lift. destruct (for_loop _ _ _ _); reflexivity.
Qed.

Lemma dispatch_p3_visualize (img : Mat) (w : World) :
  precision_level (ortAgent_ w) = 3 ->
  isVisualize (ortAgent_ w) = true ->
  dispatch ort img w =
  finish (resultImg <~ of_ext (p3_infer_visualize ort img) ;;
          Ok [EvPublish visual_pub
                (ImagePayload (toImageMsg "bgr8" resultImg))]) w.
Proof.
  intros H V. unfold dispatch, bind, agent. rewrite H, V.
  destruct (p3_infer_visualize ort img); reflexivity.
Qed.

Lemma dispatch_p3_action (img : Mat) (w : World) :
  precision_level (ortAgent_ w) = 3 ->
  isVisualize (ortAgent_ w) = false ->
  dispatch ort img w =
  finish (result <~ of_ext (p3_infer_action ort img) ;;
          output_msg <~ for_loop (data_size result) 0 (p3_body result)
                          empty_detection ;;
          Ok [EvPublish p3_pub (DetectionPayload output_msg)]) w.
Proof.
  intros H V. unfold dispatch, bind, agent. rewrite H, V.
  destruct (p3_infer_action ort img) as [e|r]; simpl; auto.
  unfold lift. destruct (for_loop _ _ _ _); reflexivity.
Qed.

(** No [default:] label: any other level falls through the switch. *)
Lemma dispatch_other (img : Mat) (w : World) :
  precision_level (ortAgent_ w) <> 1 ->
  precision_level (ortAgent_ w) <> 2 ->
  precision_level (ortAgent_ w) <> 3 ->
  dispatch ort img w = finish (Ok []) w.
Proof.
  intros H1 H2 H3. unfold dispatch, bind, agent, finish.
  rewrite add_events_nil.
  destruct (precision_level (ortAgent_ w)) as [|p|p]; try reflexivity.
  destruct p as [[q|q|]|[q|q|]|]; try reflexivity; congruence.
Qed.

Lemma quiet_publish {A : Type} (x : ExtError + A) (p : Publisher)
    (f : A -> Payload) :
  quiet (v <~ of_ext x ;; Ok [EvPublish p (f v)]).
Proof.
  split.
  - intros s. destruct x; discriminate.
  - intros evs. destruct x; simpl; intros E; inversion E; subst; simpl; auto.
Qed.

Lemma quiet_projection (x : ExtError + EPDObjectDetection) (p : Publisher)
    (body : EPDObjectDetection -> nat -> EPDObjectDetectionMsg ->
            Res EPDObjectDetectionMsg) :
  (forall r i acc e, body r i acc <> Throw e) ->
  quiet (result <~ of_ext x ;;
         output_msg <~ for_loop (data_size result) 0 (body result)
                         empty_detection ;;
         Ok [EvPublish p (DetectionPayload output_msg)]).
Proof.
  intros Hb. split.
  - intros s. destruct x as [e|r]; simpl; [discriminate|].
    destruct (for_loop _ _ _ _) as [m|e|] eqn:L; simpl; try discriminate.
    exfalso. exact (for_loop_no_throw _ (Hb r) _ _ _ _ L).
  - intros evs. destruct x as [e|r]; simpl; [discriminate|].
    destruct (for_loop _ _ _ _); simpl; intros E;
      inversion E; subst; simpl; auto.
Qed.

Lemma quiet_nothing : quiet (Ok []).
Proof.
  split.
  - discriminate.
  - intros evs E. inversion E; subst; simpl; auto.
Qed.

(** Whatever branch is taken, the switch only reads the container: its
    outcome is a function of the container and the frame, it never raises
    the node's own runtime error, and on return it has appended at most one
    publication and nothing else. *)
Lemma dispatch_shape (img : Mat) (a : EPDContainer) :
  exists r : Res (list Event),
    (forall w, ortAgent_ w = a -> dispatch ort img w = finish r w) /\
    quiet r.
Proof.
  destruct (Z.eq_dec (precision_level a) 1) as [P1|P1];
    [|destruct (Z.eq_dec (precision_level a) 2) as [P2|P2];
      [|destruct (Z.eq_dec (precision_level a) 3) as [P3|P3]]];
    try destruct (isVisualize a) eqn:V.
  - eexists. split; [intros w <-; now apply dispatch_p1|].
    apply quiet_publish with (f := fun names => ClassificationPayload _).
  - eexists. split; [intros w <-; now apply dispatch_p1|].
    apply quiet_publish with (f := fun names => ClassificationPayload _).
  - eexists. split; [intros w <-; now apply dispatch_p2_visualize|].
    apply quiet_publish with (f := fun resultImg => ImagePayload _).
  - eexists. split; [intros w <-; now apply dispatch_p2_action|].
    apply quiet_projection, p2_body_no_throw.
  - eexists. split; [intros w <-; now apply dispatch_p3_visualize|].
    apply quiet_publish with (f := fun resultImg => ImagePayload _).
  - eexists. split; [intros w <-; now apply dispatch_p3_action|].
    apply quiet_projection, p3_body_no_throw.
  - eexists. split; [intros w <-; now apply dispatch_other|].
    apply quiet_nothing.
  - eexists. split; [intros w <-; now apply dispatch_other|].
    apply quiet_nothing.
Qed.

(** Lines 142-146 leave the configuration alone. *)
Lemma after_bootstrap_level (img : Mat) (w : World) :
  precision_level (ortAgent_ (after_bootstrap img w)) =
  precision_level (ortAgent_ w).
Proof.
  unfold after_bootstrap; simpl. destruct (isInit (ortAgent_ w)); reflexivity.
Qed.

Lemma after_bootstrap_visualize (img : Mat) (w : World) :
  isVisualize (ortAgent_ (after_bootstrap img w)) = isVisualize (ortAgent_ w).
Proof.
  unfold after_bootstrap; simpl. destruct (isInit (ortAgent_ w)); reflexivity.
Qed.

Lemma after_bootstrap_isInit (img : Mat) (w : World) :
  isInit (ortAgent_ (after_bootstrap img w)) = true.
Proof.
  unfold after_bootstrap; simpl.
  destruct (isInit (ortAgent_ w)) eqn:I; auto.
Qed.

Lemma after_bootstrap_steady (img : Mat) (w : World) :
  isInit (ortAgent_ w) = true -> after_bootstrap img w = w.
Proof.
  intros I. unfold after_bootstrap, bootstrap_events. rewrite I.
  destruct w; simpl. now rewrite app_nil_r.
Qed.

(** A frame that passed the empty check and was decoded. *)
Lemma process_frame_decoded (msg : Image.t) (w : World) (img : Mat) :
  toCvCopy msg "bgr8" = inr img ->
  process_frame ort msg w =
  match bootstrap img w with
  | (Ok _, w1) => then_fps (dispatch ort img w1)
  | other => other
  end.
Proof.
  intros D. unfold process_frame, bind, lift. rewrite D. simpl.
  destruct (bootstrap img w) as [[u|e|] w1]; try reflexivity.
  unfold then_fps.
  destruct (dispatch ort img w1) as [[u'|e|] w2]; reflexivity.
Qed.

Lemma process_frame_undecodable (msg : Image.t) (w : World) (e : ExtError) :
  toCvCopy msg "bgr8" = inl e ->
  process_frame ort msg w = (Throw (foreign e), w).
Proof.
  intros D. unfold process_frame, bind, lift. now rewrite D.
Qed.

Lemma process_frame_changed (msg : Image.t) (w : World) (img : Mat) :
  toCvCopy msg "bgr8" = inr img ->
  isInit (ortAgent_ w) = true ->
  getWidth (ortAgent_ w) <> cols img ->
  getHeight (ortAgent_ w) <> rows img ->
  process_frame ort msg w =
  (Throw (runtime_error "Input camera changed. Please restart."), w).
Proof.
  intros D I Hw Hh. rewrite (process_frame_decoded _ _ _ D).
  pose proof (bootstrap_spec img w) as B.
  destruct (bootstrap img w) as [r w1]; simpl in B.
  inversion B; subst; try reflexivity; try congruence.
  unfold same_camera in *. tauto.
Qed.

Lemma process_frame_passes (msg : Image.t) (w : World) (img : Mat) :
  toCvCopy msg "bgr8" = inr img ->
  isInit (ortAgent_ w) = false \/ same_camera (ortAgent_ w) img ->
  process_frame ort msg w = then_fps (dispatch ort img (after_bootstrap img w)).
Proof.
  intros D P. rewrite (process_frame_decoded _ _ _ D).
  pose proof (bootstrap_spec img w) as B.
  destruct (bootstrap img w) as [r w1]; simpl in B.
  inversion B; subst.
  - unfold after_bootstrap, bootstrap_events.
    match goal with H : isInit _ = false |- _ => rewrite H end.
    reflexivity.
  - now rewrite after_bootstrap_steady.
  - exfalso. unfold same_camera in P. destruct P as [P|[P|P]]; congruence.
Qed.

(** Lines 133-136: the early return. *)
Lemma topic_callback_empty (msg : Image.t) (w : World) :
  Image.height msg = 0 ->
  topic_callback ort msg w =
  (Ok tt, add_events [EvWarn "Input image empty. Discarding."] w).
Proof.
  intros H. unfold topic_callback. rewrite H. reflexivity.
Qed.

Lemma topic_callback_nonempty (msg : Image.t) (w : World) :
  Image.height msg <> 0 ->
  topic_callback ort msg w = process_frame ort msg w.
Proof.
  intros H. unfold topic_callback.
  apply Z.eqb_neq in H. now rewrite H.
Qed.

(** Every way a non-empty frame can go through the callback. *)
Lemma process_frame_cases (msg : Image.t) (w : World) :
  (exists e,
      toCvCopy msg "bgr8" = inl e /\
      process_frame ort msg w = (Throw (foreign e), w)) \/
  (exists img,
      toCvCopy msg "bgr8" = inr img /\
      isInit (ortAgent_ w) = true /\
      getWidth (ortAgent_ w) <> cols img /\
      getHeight (ortAgent_ w) <> rows img /\
      process_frame ort msg w =
      (Throw (runtime_error "Input camera changed. Please restart."), w)) \/
  (exists img r,
      toCvCopy msg "bgr8" = inr img /\
      (isInit (ortAgent_ w) = false \/ same_camera (ortAgent_ w) img) /\
      (forall w', ortAgent_ w' = ortAgent_ (after_bootstrap img w) ->
                  dispatch ort img w' = finish r w') /\
      quiet r /\
      process_frame ort msg w = then_fps (finish r (after_bootstrap img w))).
Proof.
  assert (P : forall img,
             toCvCopy msg "bgr8" = inr img ->
             isInit (ortAgent_ w) = false \/ same_camera (ortAgent_ w) img ->
             exists img r,
               toCvCopy msg "bgr8" = inr img /\
               (isInit (ortAgent_ w) = false \/
                same_camera (ortAgent_ w) img) /\
               (forall w', ortAgent_ w' = ortAgent_ (after_bootstrap img w) ->
                           dispatch ort img w' = finish r w') /\
               quiet r /\
               process_frame ort msg w =
               then_fps (finish r (after_bootstrap img w))).
  { intros img D Hp.
    destruct (dispatch_shape img (ortAgent_ (after_bootstrap img w)))
      as (r & R1 & Q).
    exists img, r.
    split; [exact D|]. split; [exact Hp|]. split; [exact R1|].
    split; [exact Q|].
    rewrite <- R1 by reflexivity.
    now apply process_frame_passes. }
  destruct (toCvCopy msg "bgr8") as [e|img] eqn:D.
  - left. exists e. split; auto. now apply process_frame_undecodable.
  - right.
    destruct (isInit (ortAgent_ w)) eqn:I.
    + destruct (Z.eq_dec (getWidth (ortAgent_ w)) (cols img)) as [Ew|Ew];
        [|destruct (Z.eq_dec (getHeight (ortAgent_ w)) (rows img))
            as [Eh|Eh]].
      * right. apply (P img); auto. right. now left.
      * right. apply (P img); auto. right. now right.
      * left. exists img.
        split; [reflexivity|]. split; [reflexivity|].
        split; [exact Ew|]. split; [exact Eh|].
        now apply (process_frame_changed _ _ img).
    + right. apply (P img); auto.
Qed.

Lemma then_fps_finish_trace (r : Res (list Event)) (w1 : World) :
  trace (snd (then_fps (finish r w1))) =
  trace w1 ++ match r with
              | Ok evs => evs ++ [EvInfo fps_format]
              | _ => []
              end.
Proof.
  destruct r; simpl; now rewrite ?app_nil_r, <- ?app_assoc.
Qed.

Lemma then_fps_finish_agent (r : Res (list Event)) (w1 : World) :
  ortAgent_ (snd (then_fps (finish r w1))) = ortAgent_ w1.
Proof.
  destruct r; reflexivity.
Qed.

Lemma then_fps_finish_outcome (r : Res (list Event)) (w1 : World) :
  fst (then_fps (finish r w1)) =
  match r with
  | Ok _ => Ok tt
  | Throw e => Throw e
  | Undefined => Undefined
  end.
Proof.
  destruct r; reflexivity.
Qed.

Lemma emitted_unchanged {A : Type} (c : M A) (w : World) :
  trace (snd (c w)) = trace w -> emitted c w = [].
Proof.
  intros H. apply emitted_extends. now rewrite app_nil_r.
Qed.

(* ================================================================== *)
(** ** The claims about the frame callback *)

(** C2. A frame whose reported height is 0 is dropped: the callback
    returns normally, appends the warning and nothing else, so nothing is
    published on any topic, the container is left as it was (in
    particular not initialised), and the run goes on with the next
    frame. *)
Theorem empty_frame_is_dropped :
  forall (msg : Image.t) (w : World),
    Image.height msg = 0 ->
    topic_callback ort msg w =
      (Ok tt, add_events [EvWarn "Input image empty. Discarding."] w) /\
    emitted (topic_callback ort msg) w =
      [EvWarn "Input image empty. Discarding."] /\
    published (emitted (topic_callback ort msg) w) = [] /\
    ortAgent_ (snd (topic_callback ort msg w)) = ortAgent_ w /\
    rclcpp_ok (snd (topic_callback ort msg w)) = rclcpp_ok w /\
    forall rest,
      run_frames ort (msg :: rest) w =
      run_frames ort rest
        (add_events [EvWarn "Input image empty. Discarding."] w).
Proof.
  intros msg w H.
  pose proof (topic_callback_empty msg w H) as E.
  assert (T : emitted (topic_callback ort msg) w =
              [EvWarn "Input image empty. Discarding."]).
  { apply emitted_extends. now rewrite E. }
  split; [exact E|]. split; [exact T|].
  rewrite T, E. simpl. repeat split.
  intros rest. unfold bind. now rewrite E.
Qed.

(** C10. The empty check reads the height only: a message of width 0 and
    positive height is not rejected.  It goes through the same decoding,
    bootstrap and dispatch as every other non-empty frame, and no warning
    is logged for it. *)
Theorem zero_width_frame_is_processed :
  forall (msg : Image.t) (w : World),
    Image.width msg = 0 ->
    0 < Image.height msg ->
    topic_callback ort msg w = process_frame ort msg w /\
    warnings (emitted (topic_callback ort msg) w) = [] /\
    forall img,
      toCvCopy msg "bgr8" = inr img ->
      isInit (ortAgent_ w) = false \/ same_camera (ortAgent_ w) img ->
      topic_callback ort msg w =
      then_fps (dispatch ort img (after_bootstrap img w)).
Proof.
  intros msg w _ Hh.
  assert (E : topic_callback ort msg w = process_frame ort msg w)
    by (apply topic_callback_nonempty; lia).
  split; [exact E|]. split.
  - unfold emitted. rewrite E.
    destruct (process_frame_cases msg w)
      as [(e & D & ->)|[(img & D & I & Hw & Hg & ->)
                       |(img & r & D & P & R1 & [R2 R3] & ->)]]; simpl.
    + now rewrite skipn_all.
    + now rewrite skipn_all.
    + rewrite then_fps_finish_trace. unfold after_bootstrap; simpl.
      rewrite <- app_assoc, skipn_length_app, !warnings_app.
      unfold bootstrap_events.
      destruct (isInit (ortAgent_ w)); simpl;
        rewrite ?warnings_map_agent; simpl;
        destruct r as [evs| |]; simpl; auto;
        rewrite warnings_app;
        destruct (R3 evs eq_refl) as (_ & -> & _); reflexivity.
  - intros img D P. rewrite E. now apply process_frame_passes.
Qed.

(** C9. With a precision level other than 1, 2 or 3 the callback never
    publishes anything, whatever the frame.  A frame that reaches the
    switch (non-empty, decoded, let through by the geometry check) falls
    through it: the callback returns normally and, after the one-shot
    initialisation if that was still due, appends the latency line only. *)
Theorem unknown_precision_level_publishes_nothing :
  forall (msg : Image.t) (w : World),
    precision_level (ortAgent_ w) <> 1 ->
    precision_level (ortAgent_ w) <> 2 ->
    precision_level (ortAgent_ w) <> 3 ->
    published (emitted (topic_callback ort msg) w) = [] /\
    (forall img,
        Image.height msg <> 0 ->
        toCvCopy msg "bgr8" = inr img ->
        isInit (ortAgent_ w) = false \/ same_camera (ortAgent_ w) img ->
        topic_callback ort msg w =
          (Ok tt, add_events [EvInfo fps_format] (after_bootstrap img w)) /\
        emitted (topic_callback ort msg) w =
          bootstrap_events img (ortAgent_ w) ++ [EvInfo fps_format]) /\
    (forall img,
        Image.height msg <> 0 ->
        toCvCopy msg "bgr8" = inr img ->
        isInit (ortAgent_ w) = true ->
        same_camera (ortAgent_ w) img ->
        topic_callback ort msg w =
          (Ok tt, add_events [EvInfo fps_format] w)).
Proof.
  intros msg w P1 P2 P3.
  assert (Pass : forall img,
             Image.height msg <> 0 ->
             toCvCopy msg "bgr8" = inr img ->
             isInit (ortAgent_ w) = false \/ same_camera (ortAgent_ w) img ->
             topic_callback ort msg w =
             (Ok tt, add_events [EvInfo fps_format] (after_bootstrap img w))).
  { intros img Hh D P.
    rewrite topic_callback_nonempty by assumption.
    rewrite (process_frame_passes _ _ _ D P).
    rewrite dispatch_other by (rewrite after_bootstrap_level; assumption).
    simpl. now rewrite add_events_nil. }
  assert (Emit : forall img,
             Image.height msg <> 0 ->
             toCvCopy msg "bgr8" = inr img ->
             isInit (ortAgent_ w) = false \/ same_camera (ortAgent_ w) img ->
             emitted (topic_callback ort msg) w =
             bootstrap_events img (ortAgent_ w) ++ [EvInfo fps_format]).
  { intros img Hh D P. apply emitted_extends.
    rewrite (Pass img Hh D P). simpl. now rewrite app_assoc. }
  split; [|split].
  - destruct (Z.eq_dec (Image.height msg) 0) as [Hz|Hz].
    + rewrite (emitted_extends (topic_callback ort msg) w
                 [EvWarn "Input image empty. Discarding."]);
        [reflexivity|].
      now rewrite (topic_callback_empty msg w Hz).
    + destruct (process_frame_cases msg w)
        as [(e & D & E)|[(img & D & I & Hw & Hg & E)
                        |(img & r & D & P & _)]].
      * rewrite emitted_unchanged; auto.
        rewrite topic_callback_nonempty, E by assumption. reflexivity.
      * rewrite emitted_unchanged; auto.
        rewrite topic_callback_nonempty, E by assumption. reflexivity.
      * rewrite (Emit img Hz D P), published_app. unfold bootstrap_events.
        destruct (isInit (ortAgent_ w)); simpl;
          now rewrite ?published_map_agent.
  - intros img Hh D P. split; [now apply Pass | now apply Emit].
  - intros img Hh D I Sc.
    rewrite (Pass img Hh D (or_intror Sc)).
    now rewrite after_bootstrap_steady.
Qed.

(** C1. On a node whose session is initialised, a decoded frame makes
    the callback throw a runtime error if and only if both its column
    count differs from the stored width and its row count differs from the
    stored height; the message is then the camera-changed one, the node
    state is untouched and nothing is published.  When at most one
    dimension differs the frame goes on to the switch. *)
Theorem geometry_change_fatal_iff_both_differ :
  forall (msg : Image.t) (w : World) (img : Mat),
    Image.height msg <> 0 ->
    toCvCopy msg "bgr8" = inr img ->
    isInit (ortAgent_ w) = true ->
    ((exists what,
         fst (topic_callback ort msg w) = Throw (runtime_error what) /\
         String.prefix "Input camera changed. Please restart." what = true)
     <->
     (cols img <> getWidth (ortAgent_ w) /\
      rows img <> getHeight (ortAgent_ w))) /\
    (cols img <> getWidth (ortAgent_ w) ->
     rows img <> getHeight (ortAgent_ w) ->
     topic_callback ort msg w =
       (Throw (runtime_error "Input camera changed. Please restart."), w)) /\
    (cols img = getWidth (ortAgent_ w) \/
     rows img = getHeight (ortAgent_ w) ->
     topic_callback ort msg w = then_fps (dispatch ort img w)).
Proof.
  intros msg w img Hh D I.
  assert (Fatal : cols img <> getWidth (ortAgent_ w) ->
                  rows img <> getHeight (ortAgent_ w) ->
                  topic_callback ort msg w =
                  (Throw (runtime_error
                            "Input camera changed. Please restart."), w)).
  { intros Hw Hg. rewrite topic_callback_nonempty by assumption.
    apply (process_frame_changed _ _ img); auto. }
  assert (Pass : cols img = getWidth (ortAgent_ w) \/
                 rows img = getHeight (ortAgent_ w) ->
                 topic_callback ort msg w = then_fps (dispatch ort img w)).
  { intros S. rewrite topic_callback_nonempty by assumption.
    rewrite (process_frame_passes _ _ _ D).
    - now rewrite after_bootstrap_steady.
    - right. unfold same_camera. destruct S; auto. }
  split; [|split; assumption].
  split.
  - intros (what & T & _).
    destruct (Z.eq_dec (cols img) (getWidth (ortAgent_ w))) as [Ew|Ew];
      [|destruct (Z.eq_dec (rows img) (getHeight (ortAgent_ w)))
          as [Eh|Eh]]; [| |tauto]; exfalso.
    all: rewrite Pass in T by tauto.
    all: destruct (dispatch_shape img (ortAgent_ w)) as (r & R1 & [R2 _]).
    all: rewrite R1, then_fps_finish_outcome in T by reflexivity.
    all: destruct r as [evs|e|]; try discriminate.
    all: apply (R2 what); congruence.
  - intros [Hw Hg].
    exists "Input camera changed. Please restart.".
    rewrite Fatal by assumption. split; reflexivity.
Qed.

(** What a non-empty frame on which the callback returned has published:
    one message, on the publisher fixed by the precision level and the
    visualize flag. *)
Lemma returned_frame_publishers :
  forall (msg : Image.t) (w : World),
    Image.height msg <> 0 ->
    fst (topic_callback ort msg w) = Ok tt ->
    (precision_level (ortAgent_ w) = 1 ->
     published (emitted (topic_callback ort msg) w) = [p1_pub]) /\
    (precision_level (ortAgent_ w) = 2 ->
     isVisualize (ortAgent_ w) = true ->
     published (emitted (topic_callback ort msg) w) = [visual_pub]) /\
    (precision_level (ortAgent_ w) = 2 ->
     isVisualize (ortAgent_ w) = false ->
     published (emitted (topic_callback ort msg) w) = [p2_pub]) /\
    (precision_level (ortAgent_ w) = 3 ->
     isVisualize (ortAgent_ w) = true ->
     published (emitted (topic_callback ort msg) w) = [visual_pub]) /\
    (precision_level (ortAgent_ w) = 3 ->
     isVisualize (ortAgent_ w) = false ->
     published (emitted (topic_callback ort msg) w) = [p3_pub]).
Proof.
  intros msg w Hh HOk.
  rewrite topic_callback_nonempty in HOk by assumption.
  unfold emitted. rewrite topic_callback_nonempty by assumption.
  destruct (process_frame_cases msg w)
    as [(e & D & E)|[(img & D & I & Hw & Hg & E)
                    |(img & r0 & D & P & _)]];
    [rewrite E in HOk; discriminate | rewrite E in HOk; discriminate |].
  rewrite (process_frame_passes _ _ _ D P) in *.
  assert (B : published (bootstrap_events img (ortAgent_ w)) = []).
  { unfold bootstrap_events.
    destruct (isInit (ortAgent_ w)); [reflexivity|].
    apply published_map_agent. }
  assert (T : forall r,
             dispatch ort img (after_bootstrap img w) =
             finish r (after_bootstrap img w) ->
             forall p,
             (forall evs, r = Ok evs -> exists m, evs = [EvPublish p m]) ->
             published
               (skipn (List.length (trace w))
                  (trace (snd (then_fps
                     (dispatch ort img (after_bootstrap img w)))))) = [p]).
  { intros r Hr p Hev. rewrite Hr in *.
    rewrite then_fps_finish_trace. rewrite then_fps_finish_outcome in HOk.
    unfold after_bootstrap at 1; simpl.
    rewrite <- app_assoc, skipn_length_app, published_app, B.
    destruct r as [evs| |]; try discriminate.
    destruct (Hev evs eq_refl) as [m ->]. reflexivity. }
  repeat split.
  - intros L.
    eapply (T _ (dispatch_p1 _ _ (eq_trans (after_bootstrap_level _ _) L))).
    intros evs. destruct (p1_infer ort img); simpl; intros E;
      inversion E; eexists; reflexivity.
  - intros L V.
    eapply (T _ (dispatch_p2_visualize _ _
                   (eq_trans (after_bootstrap_level _ _) L)
                   (eq_trans (after_bootstrap_visualize _ _) V))).
    intros evs. destruct (p2_infer_visualize ort img); simpl; intros E;
      inversion E; eexists; reflexivity.
  - intros L V.
    eapply (T _ (dispatch_p2_action _ _
                   (eq_trans (after_bootstrap_level _ _) L)
                   (eq_trans (after_bootstrap_visualize _ _) V))).
    intros evs. destruct (p2_infer_action ort img); simpl;
      [discriminate|].
    destruct (for_loop _ _ _ _) eqn:F; simpl; intros E;
      inversion E; eexists; reflexivity.
  - intros L V.
    eapply (T _ (dispatch_p3_visualize _ _
                   (eq_trans (after_bootstrap_level _ _) L)
                   (eq_trans (after_bootstrap_visualize _ _) V))).
    intros evs. destruct (p3_infer_visualize ort img); simpl; intros E;
      inversion E; eexists; reflexivity.
  - intros L V.
    eapply (T _ (dispatch_p3_action _ _
                   (eq_trans (after_bootstrap_level _ _) L)
                   (eq_trans (after_bootstrap_visualize _ _) V))).
    intros evs. destruct (p3_infer_action ort img); simpl;
      [discriminate|].
    destruct (for_loop _ _ _ _) eqn:F; simpl; intros E;
      inversion E; eexists; reflexivity.
Qed.

(* ================================================================== *)
(** ** The result projector inside the callback *)

(** A structured (non-visualize) P2 or P3 frame, [p3] telling which.  The
    callback returns exactly when the frame reaches the switch and the
    detector result covers its [data_size]; it then publishes the
    projection of the result on the level's topic. *)
Lemma detection_frame (p3 : bool) (msg : Image.t) (w : World) (img : Mat)
    (r : EPDObjectDetection) :
  Image.height msg <> 0 ->
  toCvCopy msg "bgr8" = inr img ->
  isVisualize (ortAgent_ w) = false ->
  (if p3
   then precision_level (ortAgent_ w) = 3 /\ p3_infer_action ort img = inr r
   else precision_level (ortAgent_ w) = 2 /\ p2_infer_action ort img = inr r) ->
  (isInit (ortAgent_ w) = false \/ same_camera (ortAgent_ w) img ->
   covers p3 r ->
   topic_callback ort msg w =
   (Ok tt,
    add_events
      [EvPublish (if p3 then p3_pub else p2_pub)
         (DetectionPayload
            (if p3 then p3_projection r else p2_projection r));
       EvInfo fps_format]
      (after_bootstrap img w))) /\
  (fst (topic_callback ort msg w) = Ok tt ->
   (isInit (ortAgent_ w) = false \/ same_camera (ortAgent_ w) img) /\
   covers p3 r).
Proof.
  intros Hh D V Hr.
  rewrite topic_callback_nonempty by assumption.
  assert (Disp : dispatch ort img (after_bootstrap img w) =
                 finish
                   (output_msg <~
                      for_loop (data_size r) 0
                        (if p3 then p3_body r else p2_body r)
                        empty_detection ;;
                    Ok [EvPublish (if p3 then p3_pub else p2_pub)
                          (DetectionPayload output_msg)])
                   (after_bootstrap img w)).
  { destruct p3; destruct Hr as [L I].
    - rewrite dispatch_p3_action, I;
        rewrite ?after_bootstrap_level, ?after_bootstrap_visualize; auto.
    - rewrite dispatch_p2_action, I;
        rewrite ?after_bootstrap_level, ?after_bootstrap_visualize; auto. }
  assert (Loop : forall m,
             for_loop (data_size r) 0 (if p3 then p3_body r else p2_body r)
               empty_detection = Ok m <->
             covers p3 r /\
             m = (if p3 then p3_projection r else p2_projection r)).
  { intros m. destruct p3; [apply p3_loop_spec | apply p2_loop_spec]. }
  split.
  - intros P C.
    rewrite (process_frame_passes _ _ _ D P), Disp.
    rewrite (proj2 (Loop _) (conj C eq_refl)). simpl.
    now rewrite add_events_app.
  - intros HOk.
    destruct (process_frame_cases msg w)
      as [(e & De & E)|[(img' & D' & I & Hw & Hg & E)
                       |(img' & r0 & D' & P & _)]];
      [rewrite E in HOk; discriminate | rewrite E in HOk; discriminate |].
    assert (img' = img) by congruence. subst img'.
    split; [exact P|].
    rewrite (process_frame_passes _ _ _ D P), Disp in HOk.
    destruct (for_loop _ _ _ _) as [m| |]; try discriminate.
    exact (proj1 (proj1 (Loop m) eq_refl)).
Qed.

(** What such a frame appends to the trace when the callback returns. *)
Lemma detection_emitted (p3 : bool) (msg : Image.t) (w : World) (img : Mat)
    (r : EPDObjectDetection) :
  Image.height msg <> 0 ->
  toCvCopy msg "bgr8" = inr img ->
  isVisualize (ortAgent_ w) = false ->
  (if p3
   then precision_level (ortAgent_ w) = 3 /\ p3_infer_action ort img = inr r
   else precision_level (ortAgent_ w) = 2 /\ p2_infer_action ort img = inr r) ->
  fst (topic_callback ort msg w) = Ok tt ->
  covers p3 r /\
  emitted (topic_callback ort msg) w =
  bootstrap_events img (ortAgent_ w) ++
  [EvPublish (if p3 then p3_pub else p2_pub)
     (DetectionPayload (if p3 then p3_projection r else p2_projection r));
   EvInfo fps_format] /\
  detections (emitted (topic_callback ort msg) w) =
  [if p3 then p3_projection r else p2_projection r].
Proof.
  intros Hh D V Hr HOk.
  destruct (detection_frame p3 msg w img r Hh D V Hr) as [A B].
  destruct (B HOk) as [P C]. specialize (A P C).
  assert (E : emitted (topic_callback ort msg) w =
              bootstrap_events img (ortAgent_ w) ++
              [EvPublish (if p3 then p3_pub else p2_pub)
                 (DetectionPayload
                    (if p3 then p3_projection r else p2_projection r));
               EvInfo fps_format]).
  { apply emitted_extends. rewrite A. simpl. now rewrite app_assoc. }
  split; [exact C|]. split; [exact E|].
  rewrite E, detections_app. unfold bootstrap_events.
  destruct (isInit (ortAgent_ w)); simpl;
    now rewrite ?detections_map_agent.
Qed.

(** A value passes unchanged through the conversion to [uint32] exactly
    when it lies in the unsigned 32-bit range. *)
Lemma to_uint32_id_iff (z : Z) : to_uint32 z = z <-> 0 <= z < uint32_max.
Proof.
  unfold to_uint32.
  assert (P : 0 < uint32_max) by (unfold uint32_max; lia).
  rewrite Z.mod_small_iff by lia. lia.
Qed.

(** C3 (amended). A structured P2 (p3 = false) or P3 (p3 = true) frame
    that reaches the switch with a detector result covering its data_size
    makes the callback return, and the message it publishes holds one
    region of interest per detector box, in order.  The region made from
    box (x1, y1, x2, y2) has do_rectify = false, and its four unsigned
    32-bit fields hold x1, y1, x2 - x1 and y2 - y1 reduced modulo 2^32:
    they equal x1, y1, x2 - x1 and y2 - y1 exactly when 0 <= x1 < 2^32,
    0 <= y1 < 2^32, 0 <= x2 - x1 < 2^32 and 0 <= y2 - y1 < 2^32. *)
Theorem roi_matches_detector_box :
  forall (p3 : bool) (msg : Image.t) (w : World) (img : Mat)
         (r : EPDObjectDetection),
    Image.height msg <> 0 ->
    toCvCopy msg "bgr8" = inr img ->
    isVisualize (ortAgent_ w) = false ->
    (if p3
     then precision_level (ortAgent_ w) = 3 /\
          p3_infer_action ort img = inr r
     else precision_level (ortAgent_ w) = 2 /\
          p2_infer_action ort img = inr r) ->
    (isInit (ortAgent_ w) = false \/ same_camera (ortAgent_ w) img ->
     covers p3 r ->
     fst (topic_callback ort msg w) = Ok tt) /\
    (fst (topic_callback ort msg w) = Ok tt ->
     exists m,
       detections (emitted (topic_callback ort msg) w) = [m] /\
       List.length (msg_bboxes m) = data_size r /\
       Forall (fun roi => RegionOfInterest.do_rectify roi = false)
         (msg_bboxes m) /\
       forall (i : nat) (x1 y1 x2 y2 : Z),
         (i < data_size r)%nat ->
         nth_error (bboxes r) i = Some (x1, y1, x2, y2) ->
         nth_error (msg_bboxes m) i =
           Some {| RegionOfInterest.x_offset := to_uint32 x1;
                   RegionOfInterest.y_offset := to_uint32 y1;
                   RegionOfInterest.height := to_uint32 (y2 - y1);
                   RegionOfInterest.width := to_uint32 (x2 - x1);
                   RegionOfInterest.do_rectify := false |} /\
         ((to_uint32 x1 = x1 /\ to_uint32 y1 = y1 /\
           to_uint32 (x2 - x1) = x2 - x1 /\
           to_uint32 (y2 - y1) = y2 - y1) <->
          (0 <= x1 < uint32_max /\ 0 <= y1 < uint32_max /\
           0 <= x2 - x1 < uint32_max /\ 0 <= y2 - y1 < uint32_max)) /\
         (0 <= x1 < uint32_max -> 0 <= y1 < uint32_max ->
          0 <= x2 - x1 < uint32_max -> 0 <= y2 - y1 < uint32_max ->
          nth_error (msg_bboxes m) i =
            Some {| RegionOfInterest.x_offset := x1;
                    RegionOfInterest.y_offset := y1;
                    RegionOfInterest.height := y2 - y1;
                    RegionOfInterest.width := x2 - x1;
                    RegionOfInterest.do_rectify := false |})).
Proof.
  intros p3 msg w img r Hh D V Hr. split.
  - intros P C.
    destruct (detection_frame p3 msg w img r Hh D V Hr) as [A _].
    now rewrite (A P C).
  - intros HOk.
    destruct (detection_emitted p3 msg w img r Hh D V Hr HOk)
      as (C & _ & Dm).
    exists (if p3 then p3_projection r else p2_projection r).
    split; [exact Dm|].
    assert (B : msg_bboxes
                  (if p3 then p3_projection r else p2_projection r) =
                map roi_of (firstn (data_size r) (bboxes r)))
      by (destruct p3; reflexivity).
    rewrite B. destruct C as (_ & _ & C3 & _).
    split; [rewrite length_map; now apply firstn_length_le|].
    split.
    + apply Forall_forall. intros roi Hin.
      apply in_map_iff in Hin. destruct Hin as (b & <- & _). reflexivity.
    + intros i x1 y1 x2 y2 Hi Hb.
      assert (N : nth_error (map roi_of (firstn (data_size r) (bboxes r))) i =
                  Some {| RegionOfInterest.x_offset := to_uint32 x1;
                          RegionOfInterest.y_offset := to_uint32 y1;
                          RegionOfInterest.height := to_uint32 (y2 - y1);
                          RegionOfInterest.width := to_uint32 (x2 - x1);
                          RegionOfInterest.do_rectify := false |}).
      { rewrite nth_error_map, nth_error_firstn_lt, Hb by assumption.
        reflexivity. }
      split; [exact N|]. split.
      * rewrite !to_uint32_id_iff. reflexivity.
      * intros Rx Ry Rw Rh. rewrite N.
        apply to_uint32_id_iff in Rx, Ry, Rw, Rh.
        now rewrite Rx, Ry, Rw, Rh.
Qed.

(** C4. The message published for a structured P2 or P3 frame whose
    detector result has data_size N carries exactly N class indices, N
    scores and N boxes, and for P3 also N masks.  The callback does return
    on such a frame when it reaches the switch and the result's vectors
    hold at least N items. *)
Theorem detection_sequences_have_data_size_length :
  forall (p3 : bool) (msg : Image.t) (w : World) (img : Mat)
         (r : EPDObjectDetection),
    Image.height msg <> 0 ->
    toCvCopy msg "bgr8" = inr img ->
    isVisualize (ortAgent_ w) = false ->
    (if p3
     then precision_level (ortAgent_ w) = 3 /\
          p3_infer_action ort img = inr r
     else precision_level (ortAgent_ w) = 2 /\
          p2_infer_action ort img = inr r) ->
    (isInit (ortAgent_ w) = false \/ same_camera (ortAgent_ w) img ->
     covers p3 r ->
     fst (topic_callback ort msg w) = Ok tt) /\
    (fst (topic_callback ort msg w) = Ok tt ->
     exists m,
       detections (emitted (topic_callback ort msg) w) = [m] /\
       List.length (class_indices m) = data_size r /\
       List.length (msg_scores m) = data_size r /\
       List.length (msg_bboxes m) = data_size r /\
       (p3 = true -> List.length (msg_masks m) = data_size r)).
Proof.
  intros p3 msg w img r Hh D V Hr. split.
  - intros P C.
    destruct (detection_frame p3 msg w img r Hh D V Hr) as [A _].
    now rewrite (A P C).
  - intros HOk.
    destruct (detection_emitted p3 msg w img r Hh D V Hr HOk)
      as (C & _ & Dm).
    exists (if p3 then p3_projection r else p2_projection r).
    split; [exact Dm|].
    destruct C as (C1 & C2 & C3 & C4).
    split; [destruct p3; simpl; now apply firstn_length_le|].
    split; [destruct p3; simpl; now apply firstn_length_le|].
    split;
      [destruct p3; simpl; rewrite length_map; now apply firstn_length_le|].
    intros ->. simpl. rewrite length_map. apply firstn_length_le. now apply C4.
Qed.

(** The message of a structured frame on which the callback returned,
    sequence by sequence and index by index. *)
Lemma returned_frame_projection :
  forall (p3 : bool) (msg : Image.t) (w : World) (img : Mat)
         (r : EPDObjectDetection),
    Image.height msg <> 0 ->
    toCvCopy msg "bgr8" = inr img ->
    isVisualize (ortAgent_ w) = false ->
    (if p3
     then precision_level (ortAgent_ w) = 3 /\
          p3_infer_action ort img = inr r
     else precision_level (ortAgent_ w) = 2 /\
          p2_infer_action ort img = inr r) ->
    fst (topic_callback ort msg w) = Ok tt ->
    exists m,
      detections (emitted (topic_callback ort msg) w) = [m] /\
      class_indices m = firstn (data_size r) (classIndices r) /\
      msg_scores m = firstn (data_size r) (scores r) /\
      msg_bboxes m = map roi_of (firstn (data_size r) (bboxes r)) /\
      msg_masks m =
        (if p3
         then map (toImageMsg "32FC1") (firstn (data_size r) (masks r))
         else []) /\
      forall i,
        (i < data_size r)%nat ->
        nth_error (class_indices m) i = nth_error (classIndices r) i /\
        nth_error (msg_scores m) i = nth_error (scores r) i /\
        nth_error (msg_bboxes m) i =
          option_map roi_of (nth_error (bboxes r) i) /\
        (p3 = true ->
         nth_error (msg_masks m) i =
           option_map (toImageMsg "32FC1") (nth_error (masks r) i)).
Proof.
  intros p3 msg w img r Hh D V Hr HOk.
  destruct (detection_emitted p3 msg w img r Hh D V Hr HOk) as (C & _ & Dm).
  exists (if p3 then p3_projection r else p2_projection r).
  split; [exact Dm|].
  assert (E1 : class_indices
                 (if p3 then p3_projection r else p2_projection r) =
               firstn (data_size r) (classIndices r))
    by (destruct p3; reflexivity).
  assert (E2 : msg_scores
                 (if p3 then p3_projection r else p2_projection r) =
               firstn (data_size r) (scores r))
    by (destruct p3; reflexivity).
  assert (E3 : msg_bboxes
                 (if p3 then p3_projection r else p2_projection r) =
               map roi_of (firstn (data_size r) (bboxes r)))
    by (destruct p3; reflexivity).
  assert (E4 : msg_masks
                 (if p3 then p3_projection r else p2_projection r) =
               (if p3
                then map (toImageMsg "32FC1")
                       (firstn (data_size r) (masks r))
                else []))
    by (destruct p3; reflexivity).
  rewrite E1, E2, E3, E4. repeat (split; [reflexivity|]).
  intros i Hi.
  rewrite !nth_error_map, !nth_error_firstn_lt by assumption.
  repeat (split; [reflexivity|]).
  intros ->. now rewrite nth_error_map, nth_error_firstn_lt.
Qed.

(** C5. A structured P2 or P3 frame that reaches the switch with a
    detector result covering its data_size N makes the callback return,
    and the sequences of the message it publishes are the first N items of
    the detector's sequences, in the detector's order, each projected on
    its own: class indices and scores unchanged, boxes through the
    region-of-interest construction, and for P3 masks through the 32FC1
    image wrapping.  Nothing is dropped, inserted or moved. *)
Theorem projector_preserves_detector_order :
  forall (p3 : bool) (msg : Image.t) (w : World) (img : Mat)
         (r : EPDObjectDetection),
    Image.height msg <> 0 ->
    toCvCopy msg "bgr8" = inr img ->
    isVisualize (ortAgent_ w) = false ->
    (if p3
     then precision_level (ortAgent_ w) = 3 /\
          p3_infer_action ort img = inr r
     else precision_level (ortAgent_ w) = 2 /\
          p2_infer_action ort img = inr r) ->
    (isInit (ortAgent_ w) = false \/ same_camera (ortAgent_ w) img ->
     covers p3 r ->
     topic_callback ort msg w =
     (Ok tt,
      add_events
        [EvPublish (if p3 then p3_pub else p2_pub)
           (DetectionPayload
              {| class_indices := firstn (data_size r) (classIndices r);
                 msg_scores := firstn (data_size r) (scores r);
                 msg_bboxes := map roi_of (firstn (data_size r) (bboxes r));
                 msg_masks :=
                   if p3
                   then map (toImageMsg "32FC1")
                          (firstn (data_size r) (masks r))
                   else [] |});
         EvInfo fps_format]
        (after_bootstrap img w))) /\
    (fst (topic_callback ort msg w) = Ok tt ->
     exists m,
       detections (emitted (topic_callback ort msg) w) = [m] /\
       class_indices m = firstn (data_size r) (classIndices r) /\
       msg_scores m = firstn (data_size r) (scores r) /\
       msg_bboxes m = map roi_of (firstn (data_size r) (bboxes r)) /\
       msg_masks m =
         (if p3
          then map (toImageMsg "32FC1") (firstn (data_size r) (masks r))
          else []) /\
       forall i,
         (i < data_size r)%nat ->
         nth_error (class_indices m) i = nth_error (classIndices r) i /\
         nth_error (msg_scores m) i = nth_error (scores r) i /\
         nth_error (msg_bboxes m) i =
           option_map roi_of (nth_error (bboxes r) i) /\
         (p3 = true ->
          nth_error (msg_masks m) i =
            option_map (toImageMsg "32FC1") (nth_error (masks r) i))).
Proof.
  intros p3 msg w img r Hh D V Hr. split.
  - intros P C.
    destruct (detection_frame p3 msg w img r Hh D V Hr) as [A _].
    rewrite (A P C). destruct p3; reflexivity.
  - intros HOk.
    exact (returned_frame_projection p3 msg w img r Hh D V Hr HOk).
Qed.

Lemma bootstrap_events_unpublished (img : Mat) (a : EPDContainer) :
  published (bootstrap_events img a) = [].
Proof.
  unfold bootstrap_events. destruct (isInit a); [reflexivity|].
  apply published_map_agent.
Qed.

(** C6. A frame that reaches the switch is processed as soon as the
    session entry point selected by the precision level and the visualize
    flag answers (for the structured entry points: with a result covering
    its data_size), and a processed frame publishes exactly one message,
    on the topic fixed by the level and the flag: the P1 topic at level 1
    whatever the flag; at levels 2 and 3 the visualization topic when the
    flag is set and the level's own topic when it is not. *)
Theorem one_topic_per_processed_frame :
  forall (msg : Image.t) (w : World),
    Image.height msg <> 0 ->
    (fst (topic_callback ort msg w) = Ok tt ->
     (precision_level (ortAgent_ w) = 1 ->
      published (emitted (topic_callback ort msg) w) = [p1_pub]) /\
     (precision_level (ortAgent_ w) = 2 ->
      isVisualize (ortAgent_ w) = true ->
      published (emitted (topic_callback ort msg) w) = [visual_pub]) /\
     (precision_level (ortAgent_ w) = 2 ->
      isVisualize (ortAgent_ w) = false ->
      published (emitted (topic_callback ort msg) w) = [p2_pub]) /\
     (precision_level (ortAgent_ w) = 3 ->
      isVisualize (ortAgent_ w) = true ->
      published (emitted (topic_callback ort msg) w) = [visual_pub]) /\
     (precision_level (ortAgent_ w) = 3 ->
      isVisualize (ortAgent_ w) = false ->
      published (emitted (topic_callback ort msg) w) = [p3_pub])) /\
    (forall img,
        toCvCopy msg "bgr8" = inr img ->
        isInit (ortAgent_ w) = false \/ same_camera (ortAgent_ w) img ->
        (precision_level (ortAgent_ w) = 1 ->
         forall names,
           p1_infer ort img = inr names ->
           fst (topic_callback ort msg w) = Ok tt /\
           published (emitted (topic_callback ort msg) w) = [p1_pub]) /\
        (precision_level (ortAgent_ w) = 2 ->
         isVisualize (ortAgent_ w) = true ->
         forall rendered,
           p2_infer_visualize ort img = inr rendered ->
           fst (topic_callback ort msg w) = Ok tt /\
           published (emitted (topic_callback ort msg) w) = [visual_pub]) /\
        (precision_level (ortAgent_ w) = 2 ->
         isVisualize (ortAgent_ w) = false ->
         forall r,
           p2_infer_action ort img = inr r ->
           covers false r ->
           fst (topic_callback ort msg w) = Ok tt /\
           published (emitted (topic_callback ort msg) w) = [p2_pub]) /\
        (precision_level (ortAgent_ w) = 3 ->
         isVisualize (ortAgent_ w) = true ->
         forall rendered,
           p3_infer_visualize ort img = inr rendered ->
           fst (topic_callback ort msg w) = Ok tt /\
           published (emitted (topic_callback ort msg) w) = [visual_pub]) /\
        (precision_level (ortAgent_ w) = 3 ->
         isVisualize (ortAgent_ w) = false ->
         forall r,
           p3_infer_action ort img = inr r ->
           covers true r ->
           fst (topic_callback ort msg w) = Ok tt /\
           published (emitted (topic_callback ort msg) w) = [p3_pub])).
Proof.
  intros msg w Hh. split.
  - intros HOk. exact (returned_frame_publishers msg w Hh HOk).
  - intros img D P.
    pose proof (returned_frame_publishers msg w Hh) as A.
    pose proof (topic_callback_nonempty msg w Hh) as E.
    rewrite (process_frame_passes msg w img D P) in E.
    pose proof (after_bootstrap_level img w) as L'.
    pose proof (after_bootstrap_visualize img w) as V'.
    split; [|split; [|split; [|split]]].
    + intros L names N.
      rewrite dispatch_p1, N in E by congruence.
      assert (HOk : fst (topic_callback ort msg w) = Ok tt)
        by (now rewrite E).
      split; [exact HOk|]. destruct (A HOk) as (A1 & _). now apply A1.
    + intros L V rendered N.
      rewrite dispatch_p2_visualize, N in E by congruence.
      assert (HOk : fst (topic_callback ort msg w) = Ok tt)
        by (now rewrite E).
      split; [exact HOk|]. destruct (A HOk) as (_ & A2 & _). now apply A2.
    + intros L V r N C.
      destruct (detection_frame false msg w img r Hh D V (conj L N))
        as [T _].
      assert (HOk : fst (topic_callback ort msg w) = Ok tt)
        by (now rewrite (T P C)).
      split; [exact HOk|]. destruct (A HOk) as (_ & _ & A3 & _).
      now apply A3.
    + intros L V rendered N.
      rewrite dispatch_p3_visualize, N in E by congruence.
      assert (HOk : fst (topic_callback ort msg w) = Ok tt)
        by (now rewrite E).
      split; [exact HOk|]. destruct (A HOk) as (_ & _ & _ & A4 & _).
      now apply A4.
    + intros L V r N C.
      destruct (detection_frame true msg w img r Hh D V (conj L N))
        as [T _].
      assert (HOk : fst (topic_callback ort msg w) = Ok tt)
        by (now rewrite (T P C)).
      split; [exact HOk|]. destruct (A HOk) as (_ & _ & _ & _ & A5).
      now apply A5.
Qed.

(* ================================================================== *)
(** ** The one-shot session bootstrap *)

(** On an initialised node a frame never touches the container: whatever
    the frame and however the callback ends, the node afterwards is the
    node before plus trace entries, none of them a container call. *)
Lemma initialised_callback (msg : Image.t) (w : World) :
  isInit (ortAgent_ w) = true ->
  exists evs,
    snd (topic_callback ort msg w) = add_events evs w /\
    agent_calls evs = [].
Proof.
  intros I.
  destruct (Z.eq_dec (Image.height msg) 0) as [Hz|Hz].
  - rewrite (topic_callback_empty msg w Hz).
    eexists; split; reflexivity.
  - rewrite topic_callback_nonempty by assumption.
    destruct (process_frame_cases msg w)
      as [(e & D & ->)|[(img & D & _ & Hw & Hg & ->)
                       |(img & r & D & P & R1 & [R2 R3] & ->)]].
    + exists []. now rewrite add_events_nil.
    + exists []. now rewrite add_events_nil.
    + rewrite after_bootstrap_steady by assumption.
      destruct r as [evs|e|]; simpl.
      * exists (evs ++ [EvInfo fps_format]).
        rewrite add_events_app, agent_calls_app.
        destruct (R3 evs eq_refl) as (-> & _). now split.
      * exists []. now rewrite add_events_nil.
      * exists []. now rewrite add_events_nil.
Qed.

Lemma initialised_run (msgs : list Image.t) :
  forall w,
    isInit (ortAgent_ w) = true ->
    exists evs,
      snd (run_frames ort msgs w) = add_events evs w /\
      agent_calls evs = [].
Proof.
  induction msgs as [|msg rest IH]; intros w I; simpl.
  - exists []. now rewrite add_events_nil.
  - destruct (initialised_callback msg w I) as (evs & E & A).
    unfold bind.
    destruct (topic_callback ort msg w) as [[u|e|] w1]; simpl in E; subst w1.
    + destruct (IH (add_events evs w) I) as (tail & -> & At).
      exists (evs ++ tail).
      now rewrite add_events_app, agent_calls_app, A, At.
    + exists evs. now split.
    + exists evs. now split.
Qed.

(** Once a frame has been processed on the geometry the session was built
    for, the same frame is processed again with the same outcome. *)
Lemma steady_frame (msg : Image.t) (img : Mat) (evs : list Event)
    (a1 : EPDContainer) :
  Image.height msg <> 0 ->
  toCvCopy msg "bgr8" = inr img ->
  isInit a1 = true ->
  getWidth a1 = cols img ->
  (forall w', ortAgent_ w' = a1 -> dispatch ort img w' = finish (Ok evs) w') ->
  forall K w',
    ortAgent_ w' = a1 ->
    fst (run_frames ort (repeat msg K) w') = Ok tt.
Proof.
  intros Hh D I Wd R1.
  induction K as [|K IH]; intros w' A; simpl; [reflexivity|].
  unfold bind.
  rewrite topic_callback_nonempty by assumption.
  rewrite (process_frame_passes _ _ _ D)
    by (right; left; now rewrite A).
  rewrite after_bootstrap_steady by (now rewrite A).
  rewrite (R1 w' A). simpl. now apply IH.
Qed.

(** C7. The session bootstrap is one-shot.  On a node that is not yet
    initialised, K+1 copies of a frame that is processed once are all
    processed; the three initialising calls (setFrameDimension with the
    frame's geometry, initORTSessionHandler, setInitBoolean(true)) happen
    exactly once over the whole run, and that is during the first frame;
    afterwards the container is the initial one initialised for that
    geometry.  Generally, a non-empty frame on which the callback returns
    leaves the node initialised, and an initialised node stays initialised
    over any later frames, with no further container call. *)
Theorem session_bootstrap_is_one_shot :
  (forall (msg : Image.t) (w : World) (img : Mat) (K : nat),
      Image.height msg <> 0 ->
      toCvCopy msg "bgr8" = inr img ->
      isInit (ortAgent_ w) = false ->
      fst (topic_callback ort msg w) = Ok tt ->
      fst (run_frames ort (repeat msg (S K)) w) = Ok tt /\
      agent_calls (emitted (topic_callback ort msg) w) = init_calls img /\
      agent_calls (emitted (run_frames ort (repeat msg (S K))) w) =
        init_calls img /\
      ortAgent_ (snd (run_frames ort (repeat msg (S K)) w)) =
        initialised_for img (ortAgent_ w) /\
      isInit (ortAgent_ (snd (run_frames ort (repeat msg (S K)) w))) = true /\
      getWidth (ortAgent_ (snd (run_frames ort (repeat msg (S K)) w))) =
        cols img /\
      getHeight (ortAgent_ (snd (run_frames ort (repeat msg (S K)) w))) =
        rows img) /\
  (forall (msg : Image.t) (w : World),
      Image.height msg <> 0 ->
      fst (topic_callback ort msg w) = Ok tt ->
      isInit (ortAgent_ (snd (topic_callback ort msg w))) = true) /\
  (forall (msgs : list Image.t) (w : World),
      isInit (ortAgent_ w) = true ->
      isInit (ortAgent_ (snd (run_frames ort msgs w))) = true /\
      ortAgent_ (snd (run_frames ort msgs w)) = ortAgent_ w /\
      agent_calls (emitted (run_frames ort msgs) w) = []).
Proof.
  split; [|split].
  - intros msg w img K Hh D I HOk.
    pose proof (topic_callback_nonempty msg w Hh) as E.
    rewrite (process_frame_passes _ _ _ D (or_introl I)) in E.
    destruct (dispatch_shape img (ortAgent_ (after_bootstrap img w)))
      as (r & R1 & [_ R3]).
    rewrite (R1 _ eq_refl) in E.
    rewrite E, then_fps_finish_outcome in HOk.
    destruct r as [evs|e|]; try discriminate.
    destruct (R3 evs eq_refl) as (Ac & _).
    simpl in E. rewrite add_events_app in E.
    assert (A1 : ortAgent_ (after_bootstrap img w) =
                 initialised_for img (ortAgent_ w)).
    { unfold after_bootstrap; simpl. now rewrite I. }
    assert (T1 : trace (after_bootstrap img w) =
                 trace w ++ map EvAgent (init_calls img)).
    { unfold after_bootstrap, bootstrap_events; simpl. now rewrite I. }
    set (w1 := add_events (evs ++ [EvInfo fps_format])
                 (after_bootstrap img w)) in *.
    assert (I1 : isInit (ortAgent_ w1) = true)
      by apply (after_bootstrap_isInit img w).
    destruct (initialised_run (repeat msg K) w1 I1) as (tail & Et & At).
    assert (Ok1 : fst (run_frames ort (repeat msg K) w1) = Ok tt).
    { apply (steady_frame msg img evs (ortAgent_ w1)); auto.
      change (ortAgent_ w1) with (ortAgent_ (after_bootstrap img w)).
      now rewrite A1. }
    assert (Run : run_frames ort (repeat msg (S K)) w =
                  run_frames ort (repeat msg K) w1).
    { simpl. unfold bind. now rewrite E. }
    assert (First : agent_calls (emitted (topic_callback ort msg) w) =
                    init_calls img).
    { rewrite (emitted_extends (topic_callback ort msg) w
                 (map EvAgent (init_calls img) ++ evs ++ [EvInfo fps_format])).
      - rewrite !agent_calls_app, agent_calls_map, Ac. reflexivity.
      - rewrite E. unfold w1, add_events. cbn [snd trace].
        rewrite T1. now rewrite <- app_assoc. }
    assert (All : agent_calls
                    (emitted (run_frames ort (repeat msg (S K))) w) =
                  init_calls img).
    { rewrite (emitted_extends (run_frames ort (repeat msg (S K))) w
                 (map EvAgent (init_calls img) ++
                  (evs ++ [EvInfo fps_format]) ++ tail)).
      - rewrite !agent_calls_app, agent_calls_map, Ac, At. reflexivity.
      - rewrite Run, Et. unfold w1, add_events. cbn [trace].
        rewrite T1. now rewrite <- !app_assoc. }
    rewrite Run, Et. unfold w1 at 2 3 4 5, add_events. cbn [ortAgent_].
    rewrite A1. repeat split; auto.
  - intros msg w Hh HOk.
    rewrite topic_callback_nonempty in * by assumption.
    destruct (process_frame_cases msg w)
      as [(e & D & E)|[(img & D & _ & Hw & Hg & E)
                      |(img & r & D & P & R1 & [R2 R3] & E)]];
      rewrite E in *; try discriminate.
    rewrite then_fps_finish_agent. apply after_bootstrap_isInit.
  - intros msgs w I.
    destruct (initialised_run msgs w I) as (evs & E & A).
    rewrite (emitted_extends (run_frames ort msgs) w evs)
      by (now rewrite E).
    rewrite E. simpl. auto.
Qed.

End Callback.

(* ================================================================== *)
(** ** The claim about the state callback *)

Section StateCallback.
Context {backend : Backend}.

Lemma c_str_shutdown : c_str "shutdown" = "shutdown".
Proof. reflexivity. Qed.

(** C8 (amended). The payload is read as a C string, that is up to its
    first NUL character.  If that reading equals "shutdown" (in
    particular if the payload is "shutdown") the node requests shutdown
    and logs nothing; if it differs (in particular if the payload holds no
    NUL character and is not "shutdown"), the handler logs the warning and
    changes nothing else.  The container is never touched. *)
Theorem state_callback_shutdown_or_warn :
  forall (msg : StringMsg.t) (w : World),
    (c_str (StringMsg.data msg) = "shutdown" ->
     state_callback msg w =
       (Ok tt,
        {| ortAgent_ := ortAgent_ w;
           rclcpp_ok := false;
           trace := trace w ++ [EvShutdown] |})) /\
    (StringMsg.data msg = "shutdown" ->
     state_callback msg w =
       (Ok tt,
        {| ortAgent_ := ortAgent_ w;
           rclcpp_ok := false;
           trace := trace w ++ [EvShutdown] |})) /\
    (c_str (StringMsg.data msg) <> "shutdown" ->
     state_callback msg w =
       (Ok tt, add_events [EvWarn "Invalid state requested."] w)) /\
    ((forall c, In c (list_ascii_of_string (StringMsg.data msg)) ->
                c <> Ascii.zero) ->
     StringMsg.data msg <> "shutdown" ->
     state_callback msg w =
       (Ok tt, add_events [EvWarn "Invalid state requested."] w)) /\
    ortAgent_ (snd (state_callback msg w)) = ortAgent_ w.
Proof.
  intros msg w.
  assert (S : c_str (StringMsg.data msg) = "shutdown" ->
              state_callback msg w =
              (Ok tt,
               {| ortAgent_ := ortAgent_ w;
                  rclcpp_ok := false;
                  trace := trace w ++ [EvShutdown] |})).
  { intros E. unfold state_callback.
    rewrite (proj2 (compare_zero_iff _ _) E). reflexivity. }
  assert (W : c_str (StringMsg.data msg) <> "shutdown" ->
              state_callback msg w =
              (Ok tt, add_events [EvWarn "Invalid state requested."] w)).
  { intros N. unfold state_callback.
    destruct (compare (c_str (StringMsg.data msg)) "shutdown" =? 0) eqn:C.
    - apply Z.eqb_eq, compare_zero_iff in C. contradiction.
    - reflexivity. }
  split; [exact S|]. split; [|split; [exact W|split]].
  - intros E. apply S. rewrite E. apply c_str_shutdown.
  - intros Hnul N. apply W. now rewrite (c_str_no_nul _ Hnul).
  - unfold state_callback.
    destruct (compare (c_str (StringMsg.data msg)) "shutdown" =? 0);
      reflexivity.
Qed.

End StateCallback.

(* ================================================================== *)
(** ** Concrete runs against the test double *)

(** C8, as first stated, fails: this payload is not "shutdown", yet the
    handler shuts the node down and logs no warning. *)
Lemma state_callback_nul_payload_counterexample :
  StringMsg.data nul_payload_msg <> "shutdown" /\
  state_callback nul_payload_msg (running_node 1 false) =
    (Ok tt,
     {| ortAgent_ := ortAgent_ (running_node 1 false);
        rclcpp_ok := false;
        trace := [EvShutdown] |}) /\
  warnings (emitted (state_callback nul_payload_msg) (running_node 1 false)) =
    [].
Proof.
  split; [discriminate|]. split; reflexivity.
Qed.

Lemma state_callback_shutdown_or_warn_witness :
  c_str (StringMsg.data nul_payload_msg) = "shutdown" /\
  c_str "pause" <> "shutdown" /\
  rclcpp_ok (snd (state_callback nul_payload_msg (running_node 1 false))) =
    false /\
  state_callback {| StringMsg.data := "pause" |} (running_node 1 false) =
    (Ok tt, add_events [EvWarn "Invalid state requested."]
              (running_node 1 false)).
Proof.
  split; [reflexivity|]. split; [discriminate|]. split.
  - rewrite (proj1 (state_callback_shutdown_or_warn nul_payload_msg
                      (running_node 1 false)) eq_refl).
    reflexivity.
  - apply (proj1 (proj2 (proj2
             (state_callback_shutdown_or_warn
                {| StringMsg.data := "pause" |} (running_node 1 false))))).
    discriminate.
Defined.

(** C2 on the first end-to-end scenario: a 640x0 frame. *)
Lemma empty_frame_is_dropped_witness :
  Image.height (frame 640 0) = 0 /\
  topic_callback stub_sessions (frame 640 0) (fresh_node 2 false) =
    (Ok tt,
     add_events [EvWarn "Input image empty. Discarding."]
       (fresh_node 2 false)) /\
  isInit (ortAgent_
            (snd (topic_callback stub_sessions (frame 640 0)
                    (fresh_node 2 false)))) = false.
Proof.
  split; [reflexivity|].
  destruct (empty_frame_is_dropped stub_sessions (frame 640 0)
              (fresh_node 2 false) eq_refl) as (E & _ & _ & A & _).
  split; [exact E|]. rewrite A. reflexivity.
Defined.

(** C10 on a 0x480 frame sent to a running P1 node: it is classified. *)
Lemma zero_width_frame_is_processed_witness :
  Image.width (frame 0 480) = 0 /\
  0 < Image.height (frame 0 480) /\
  topic_callback stub_sessions (frame 0 480) (running_node 1 false) =
    process_frame stub_sessions (frame 0 480) (running_node 1 false) /\
  published
    (emitted (topic_callback stub_sessions (frame 0 480))
       (running_node 1 false)) = [p1_pub].
Proof.
  split; [reflexivity|]. split; [reflexivity|].
  split; [|reflexivity].
  apply (zero_width_frame_is_processed stub_sessions (frame 0 480)
           (running_node 1 false)); reflexivity.
Defined.

(** C9 at precision level 7 on a running node. *)
Lemma unknown_precision_level_publishes_nothing_witness :
  precision_level (ortAgent_ (running_node 7 false)) <> 1 /\
  precision_level (ortAgent_ (running_node 7 false)) <> 2 /\
  precision_level (ortAgent_ (running_node 7 false)) <> 3 /\
  published
    (emitted (topic_callback stub_sessions (frame 640 480))
       (running_node 7 false)) = [] /\
  topic_callback stub_sessions (frame 640 480) (running_node 7 false) =
    (Ok tt, add_events [EvInfo fps_format] (running_node 7 false)).
Proof.
  split; [discriminate|]. split; [discriminate|]. split; [discriminate|].
  assert (N1 : precision_level (ortAgent_ (running_node 7 false)) <> 1)
    by discriminate.
  assert (N2 : precision_level (ortAgent_ (running_node 7 false)) <> 2)
    by discriminate.
  assert (N3 : precision_level (ortAgent_ (running_node 7 false)) <> 3)
    by discriminate.
  destruct (unknown_precision_level_publishes_nothing stub_sessions
              (frame 640 480) (running_node 7 false) N1 N2 N3)
    as (P & _ & S).
  split; [exact P|].
  apply (S (640, 480)); try reflexivity.
  - discriminate.
  - left. reflexivity.
Defined.

(** C1 on the sixth end-to-end scenario: 640x480, then 320x240. *)
Lemma geometry_change_fatal_iff_both_differ_witness :
  Image.height (frame 320 240) <> 0 /\
  @toCvCopy stub_backend (frame 320 240) "bgr8" = inr (320, 240) /\
  isInit (ortAgent_ (running_node 2 false)) = true /\
  topic_callback stub_sessions (frame 320 240) (running_node 2 false) =
    (Throw (runtime_error "Input camera changed. Please restart."),
     running_node 2 false) /\
  fst (topic_callback stub_sessions (frame 640 240) (running_node 2 false)) =
    Ok tt.
Proof.
  split; [discriminate|]. split; [reflexivity|]. split; [reflexivity|].
  split; [|reflexivity].
  assert (Hh : Image.height (frame 320 240) <> 0) by discriminate.
  destruct (geometry_change_fatal_iff_both_differ stub_sessions
              (frame 320 240) (running_node 2 false) (320, 240)
              Hh eq_refl eq_refl) as (_ & F & _).
  apply F; discriminate.
Defined.

(** C6 on the five routes: P1 with the flag set, P2 and P3 rendered, P2
    and P3 structured. *)
Lemma one_topic_per_processed_frame_witness :
  Image.height (frame 640 480) <> 0 /\
  covers false stub_p2_result /\
  covers true stub_p3_result /\
  (fst (topic_callback stub_sessions (frame 640 480) (running_node 1 true)) =
     Ok tt /\
   published
     (emitted (topic_callback stub_sessions (frame 640 480))
        (running_node 1 true)) = [p1_pub]) /\
  (fst (topic_callback stub_sessions (frame 640 480) (fresh_node 2 true)) =
     Ok tt /\
   published
     (emitted (topic_callback stub_sessions (frame 640 480))
        (fresh_node 2 true)) = [visual_pub]) /\
  (fst (topic_callback stub_sessions (frame 640 480) (fresh_node 2 false)) =
     Ok tt /\
   published
     (emitted (topic_callback stub_sessions (frame 640 480))
        (fresh_node 2 false)) = [p2_pub]) /\
  (fst (topic_callback stub_sessions (frame 640 480) (running_node 3 true)) =
     Ok tt /\
   published
     (emitted (topic_callback stub_sessions (frame 640 480))
        (running_node 3 true)) = [visual_pub]) /\
  (fst (topic_callback stub_sessions (frame 640 480) (running_node 3 false)) =
     Ok tt /\
   published
     (emitted (topic_callback stub_sessions (frame 640 480))
        (running_node 3 false)) = [p3_pub]).
Proof.
  assert (Hh : Image.height (frame 640 480) <> 0) by discriminate.
  assert (C2 : covers false stub_p2_result)
    by (unfold covers; simpl; repeat split; intros; (lia || discriminate)).
  assert (C3 : covers true stub_p3_result)
    by (unfold covers; simpl; repeat split; intros; lia).
  split; [exact Hh|]. split; [exact C2|]. split; [exact C3|].
  split; [|split; [|split; [|split]]].
  - destruct (proj2 (one_topic_per_processed_frame stub_sessions
                       (frame 640 480) (running_node 1 true) Hh)
                (640, 480) eq_refl (or_intror (or_introl eq_refl)))
      as (B & _).
    exact (B eq_refl _ eq_refl).
  - destruct (proj2 (one_topic_per_processed_frame stub_sessions
                       (frame 640 480) (fresh_node 2 true) Hh)
                (640, 480) eq_refl (or_introl eq_refl))
      as (_ & B & _).
    exact (B eq_refl eq_refl _ eq_refl).
  - destruct (proj2 (one_topic_per_processed_frame stub_sessions
                       (frame 640 480) (fresh_node 2 false) Hh)
                (640, 480) eq_refl (or_introl eq_refl))
      as (_ & _ & B & _).
    exact (B eq_refl eq_refl _ eq_refl C2).
  - destruct (proj2 (one_topic_per_processed_frame stub_sessions
                       (frame 640 480) (running_node 3 true) Hh)
                (640, 480) eq_refl (or_intror (or_introl eq_refl)))
      as (_ & _ & _ & B & _).
    exact (B eq_refl eq_refl _ eq_refl).
  - destruct (proj2 (one_topic_per_processed_frame stub_sessions
                       (frame 640 480) (running_node 3 false) Hh)
                (640, 480) eq_refl (or_intror (or_introl eq_refl)))
      as (_ & _ & _ & _ & B).
    exact (B eq_refl eq_refl _ eq_refl C3).
Defined.

(** C3, as first stated, fails: the box (-5, -7, 10, 20) has x1 <= x2 and
    y1 <= y2, yet the published region starts at 2^32 - 5, 2^32 - 7. *)
Lemma roi_negative_corner_counterexample :
  nth_error (bboxes stub_offscreen_result) 0 = Some (-5, -7, 10, 20) /\
  (-5 <= 10 /\ -7 <= 20) /\
  detections
    (emitted (topic_callback offscreen_sessions (frame 640 480))
       (running_node 2 false)) =
  [@mkDetection stub_backend [1] [500]
     [{| RegionOfInterest.x_offset := 4294967291;
         RegionOfInterest.y_offset := 4294967289;
         RegionOfInterest.height := 27;
         RegionOfInterest.width := 15;
         RegionOfInterest.do_rectify := false |}]
     []] /\
  4294967291 <> -5 /\
  4294967289 <> -7.
Proof.
  split; [reflexivity|]. split; [lia|]. split; [reflexivity|].
  split; discriminate.
Qed.

(** C3 (amended) on the third and fifth end-to-end scenarios: the P2 box
    (10, 20, 110, 220) and the P3 box (0, 0, 32, 32). *)
Lemma roi_matches_detector_box_witness :
  Image.height (frame 640 480) <> 0 /\
  covers false stub_p2_result /\
  covers true stub_p3_result /\
  (exists m,
      detections
        (emitted (topic_callback stub_sessions (frame 640 480))
           (fresh_node 2 false)) = [m] /\
      nth_error (msg_bboxes m) 0 =
        Some {| RegionOfInterest.x_offset := 10;
                RegionOfInterest.y_offset := 20;
                RegionOfInterest.height := 220 - 20;
                RegionOfInterest.width := 110 - 10;
                RegionOfInterest.do_rectify := false |}) /\
  (exists m,
      detections
        (emitted (topic_callback stub_sessions (frame 640 480))
           (running_node 3 false)) = [m] /\
      nth_error (msg_bboxes m) 0 =
        Some {| RegionOfInterest.x_offset := 0;
                RegionOfInterest.y_offset := 0;
                RegionOfInterest.height := 32 - 0;
                RegionOfInterest.width := 32 - 0;
                RegionOfInterest.do_rectify := false |}).
Proof.
  assert (Hh : Image.height (frame 640 480) <> 0) by discriminate.
  assert (C2 : covers false stub_p2_result)
    by (unfold covers; simpl; repeat split; intros; (lia || discriminate)).
  assert (C3 : covers true stub_p3_result)
    by (unfold covers; simpl; repeat split; intros; lia).
  split; [exact Hh|]. split; [exact C2|]. split; [exact C3|]. split.
  - destruct (roi_matches_detector_box stub_sessions false (frame 640 480)
                (fresh_node 2 false) (640, 480) stub_p2_result
                Hh eq_refl eq_refl (conj eq_refl eq_refl)) as [T R].
    destruct (R (T (or_introl eq_refl) C2)) as (m & Dm & _ & _ & F).
    exists m. split; [exact Dm|].
    assert (I : (0 < data_size stub_p2_result)%nat) by (simpl; lia).
    destruct (F 0%nat 10 20 110 220 I eq_refl) as (_ & _ & G).
    apply G; unfold uint32_max; lia.
  - destruct (roi_matches_detector_box stub_sessions true (frame 640 480)
                (running_node 3 false) (640, 480) stub_p3_result
                Hh eq_refl eq_refl (conj eq_refl eq_refl)) as [T R].
    destruct (R (T (or_intror (or_introl eq_refl)) C3))
      as (m & Dm & _ & _ & F).
    exists m. split; [exact Dm|].
    assert (I : (0 < data_size stub_p3_result)%nat) by (simpl; lia).
    destruct (F 0%nat 0 0 32 32 I eq_refl) as (_ & _ & G).
    apply G; unfold uint32_max; lia.
Defined.

(** C4 on the fifth end-to-end scenario: P3 with one mask. *)
Lemma detection_sequences_have_data_size_length_witness :
  Image.height (frame 640 480) <> 0 /\
  covers true stub_p3_result /\
  fst (topic_callback stub_sessions (frame 640 480) (running_node 3 false)) =
    Ok tt /\
  exists m,
    detections
      (emitted (topic_callback stub_sessions (frame 640 480))
         (running_node 3 false)) = [m] /\
    List.length (class_indices m) = 1%nat /\
    List.length (msg_scores m) = 1%nat /\
    List.length (msg_bboxes m) = 1%nat /\
    (true = true -> List.length (msg_masks m) = 1%nat).
Proof.
  assert (Hh : Image.height (frame 640 480) <> 0) by discriminate.
  assert (C : covers true stub_p3_result)
    by (unfold covers; simpl; repeat split; intros; lia).
  destruct (detection_sequences_have_data_size_length stub_sessions true
              (frame 640 480) (running_node 3 false) (640, 480)
              stub_p3_result Hh eq_refl eq_refl (conj eq_refl eq_refl))
    as (T & L).
  assert (R : fst (topic_callback stub_sessions (frame 640 480)
                     (running_node 3 false)) = Ok tt).
  { apply T; [right; left; reflexivity | exact C]. }
  split; [exact Hh|]. split; [exact C|]. split; [exact R|].
  exact (L R).
Defined.

(** C5 on the third and fifth end-to-end scenarios. *)
Lemma projector_preserves_detector_order_witness :
  Image.height (frame 640 480) <> 0 /\
  covers false stub_p2_result /\
  covers true stub_p3_result /\
  (fst (topic_callback stub_sessions (frame 640 480) (fresh_node 2 false)) =
     Ok tt /\
   exists m,
     detections
       (emitted (topic_callback stub_sessions (frame 640 480))
          (fresh_node 2 false)) = [m] /\
     class_indices m = [3; 7] /\
     msg_scores m = [900; 400] /\
     msg_masks m = []) /\
  (fst (topic_callback stub_sessions (frame 640 480) (running_node 3 false)) =
     Ok tt /\
   exists m,
     detections
       (emitted (topic_callback stub_sessions (frame 640 480))
          (running_node 3 false)) = [m] /\
     class_indices m = [4] /\
     msg_scores m = [750] /\
     msg_masks m =
       [{| Image.height := 32; Image.width := 32;
           Image.encoding := "32FC1"; Image.data := [] |}]).
Proof.
  assert (Hh : Image.height (frame 640 480) <> 0) by discriminate.
  assert (C2 : covers false stub_p2_result)
    by (unfold covers; simpl; repeat split; intros; (lia || discriminate)).
  assert (C3 : covers true stub_p3_result)
    by (unfold covers; simpl; repeat split; intros; lia).
  split; [exact Hh|]. split; [exact C2|]. split; [exact C3|]. split.
  - destruct (projector_preserves_detector_order stub_sessions false
                (frame 640 480) (fresh_node 2 false) (640, 480)
                stub_p2_result Hh eq_refl eq_refl (conj eq_refl eq_refl))
      as [T R].
    assert (HOk : fst (topic_callback stub_sessions (frame 640 480)
                         (fresh_node 2 false)) = Ok tt)
      by (rewrite (T (or_introl eq_refl) C2); reflexivity).
    split; [exact HOk|].
    destruct (R HOk) as (m & Dm & Ci & Sc & _ & Mk & _).
    exists m. split; [exact Dm|]. split; [exact Ci|].
    split; [exact Sc | exact Mk].
  - destruct (projector_preserves_detector_order stub_sessions true
                (frame 640 480) (running_node 3 false) (640, 480)
                stub_p3_result Hh eq_refl eq_refl (conj eq_refl eq_refl))
      as [T R].
    assert (HOk : fst (topic_callback stub_sessions (frame 640 480)
                         (running_node 3 false)) = Ok tt)
      by (rewrite (T (or_intror (or_introl eq_refl)) C3); reflexivity).
    split; [exact HOk|].
    destruct (R HOk) as (m & Dm & Ci & Sc & _ & Mk & _).
    exists m. split; [exact Dm|]. split; [exact Ci|].
    split; [exact Sc | exact Mk].
Defined.

(** C7 on three copies of a 640x480 frame sent to a fresh P1 node. *)
Lemma session_bootstrap_is_one_shot_witness :
  Image.height (frame 640 480) <> 0 /\
  isInit (ortAgent_ (fresh_node 1 false)) = false /\
  fst (topic_callback stub_sessions (frame 640 480) (fresh_node 1 false)) =
    Ok tt /\
  fst (run_frames stub_sessions (repeat (frame 640 480) 3)
         (fresh_node 1 false)) = Ok tt /\
  agent_calls
    (emitted (run_frames stub_sessions (repeat (frame 640 480) 3))
       (fresh_node 1 false)) =
    [CallSetFrameDimension 640 480; CallInitORTSessionHandler;
     CallSetInitBoolean true].
Proof.
  assert (Hh : Image.height (frame 640 480) <> 0) by discriminate.
  split; [exact Hh|]. split; [reflexivity|]. split; [reflexivity|].
  destruct (proj1 (session_bootstrap_is_one_shot stub_sessions)
              (frame 640 480) (fresh_node 1 false) (640, 480) 2%nat
              Hh eq_refl eq_refl eq_refl) as (R & _ & A & _).
  split; [exact R | exact A].
Defined.

(** The P1 happy path: one classification message and the latency line. *)
Example p1_frame_publishes_the_class_names :
  emitted (topic_callback stub_sessions (frame 640 480)) (running_node 1 true) =
  [EvPublish p1_pub
     (ClassificationPayload
        {| EPDImageClassification.object_names := ["cup"; "book"] |});
   EvInfo fps_format].
Proof. reflexivity. Qed.

(** The structured P2 path: both boxes become regions of interest. *)
Example p2_frame_publishes_two_regions :
  detections
    (emitted (topic_callback stub_sessions (frame 640 480))
       (running_node 2 false)) =
  [@mkDetection stub_backend [3; 7] [900; 400]
     [{| RegionOfInterest.x_offset := 10;
         RegionOfInterest.y_offset := 20;
         RegionOfInterest.height := 200;
         RegionOfInterest.width := 100;
         RegionOfInterest.do_rectify := false |};
      {| RegionOfInterest.x_offset := 5;
         RegionOfInterest.y_offset := 5;
         RegionOfInterest.height := 20;
         RegionOfInterest.width := 10;
         RegionOfInterest.do_rectify := false |}]
     []].
Proof. reflexivity. Qed.

(** A detector result that announces more items than it holds: the loop
    subscripts out of range. *)
Example short_result_is_undefined :
  for_loop 2 0
    (p2_body (@mkResult stub_backend 2 [3] [900] [(10, 20, 110, 220)] []))
    empty_detection = Undefined.
Proof. reflexivity. Qed.

(** A frame that differs from the session geometry in one dimension only
    goes through (line 153 joins the two tests with a conjunction). *)
Example one_dimension_changed_is_processed :
  fst (topic_callback stub_sessions (frame 320 480) (running_node 1 false)) =
    Ok tt /\
  fst (topic_callback stub_sessions (frame 640 240) (running_node 1 false)) =
    Ok tt.
Proof. split; reflexivity. Qed.

(* ================================================================== *)
(** * Further properties of the node *)

Section MoreTraceFacts.
Context {backend : Backend}.

Lemma infos_app (l r : list Event) : infos (l ++ r) = infos l ++ infos r.
Proof.
  induction l as [|[] l IH]; simpl; congruence.
Qed.

Lemma publications_app (l r : list Event) :
  publications (l ++ r) = publications l ++ publications r.
Proof.
  induction l as [|[] l IH]; simpl; congruence.
Qed.

Lemma infos_map_agent (cs : list AgentCall) : infos (map EvAgent cs) = [].
Proof.
  induction cs; simpl; auto.
Qed.

Lemma publications_map_agent (cs : list AgentCall) :
  publications (map EvAgent cs) = [].
Proof.
  induction cs; simpl; auto.
Qed.

Lemma published_publications (evs : list Event) :
  published evs = map fst (publications evs).
Proof.
  induction evs as [|[] evs IH]; simpl; congruence.
Qed.

Lemma bootstrap_events_silent (img : Mat) (a : EPDContainer) :
  published (bootstrap_events img a) = [] /\
  publications (bootstrap_events img a) = [] /\
  infos (bootstrap_events img a) = [] /\
  warnings (bootstrap_events img a) = [].
Proof.
  unfold bootstrap_events. destruct (isInit a); simpl; auto.
Qed.

Lemma route_other (a : EPDContainer) :
  precision_level a <> 1 ->
  precision_level a <> 2 ->
  precision_level a <> 3 ->
  route a = None.
Proof.
  intros H1 H2 H3. unfold route.
  destruct (precision_level a) as [|p|p]; try reflexivity.
  destruct p as [[q|q|]|[q|q|]|]; try reflexivity; congruence.
Qed.

Lemma published_of_publish {A : Type} (x : ExtError + A) (p : Publisher)
    (f : A -> Payload) (evs : list Event) :
  (v <~ of_ext x ;; Ok [EvPublish p (f v)]) = Ok evs ->
  published evs = [p] /\ infos evs = [].
Proof.
  destruct x; simpl; intros E; inversion E; subst; auto.
Qed.

Lemma published_of_projection (x : ExtError + EPDObjectDetection)
    (p : Publisher)
    (body : EPDObjectDetection -> nat -> EPDObjectDetectionMsg ->
            Res EPDObjectDetectionMsg)
    (evs : list Event) :
  (result <~ of_ext x ;;
   output_msg <~ for_loop (data_size result) 0 (body result)
                   empty_detection ;;
   Ok [EvPublish p (DetectionPayload output_msg)]) = Ok evs ->
  published evs = [p] /\ infos evs = [].
Proof.
  destruct x as [e|r]; simpl; [discriminate|].
  destruct (for_loop _ _ _ _); simpl; intros E; inversion E; subst; auto.
Qed.

End MoreTraceFacts.

Section MoreCallback.
Context {backend : Backend}.
Variable ort : Sessions.

(** The switch again, now with the publisher it ends on. *)
Lemma dispatch_route (img : Mat) (a : EPDContainer) :
  exists r : Res (list Event),
    (forall w, ortAgent_ w = a -> dispatch ort img w = finish r w) /\
    quiet r /\
    (forall evs, r = Ok evs ->
       published evs = match route a with Some p => [p] | None => [] end /\
       infos evs = []).
Proof.
  destruct (Z.eq_dec (precision_level a) 1) as [P1|P1];
    [|destruct (Z.eq_dec (precision_level a) 2) as [P2|P2];
      [|destruct (Z.eq_dec (precision_level a) 3) as [P3|P3]]];
    try destruct (isVisualize a) eqn:V.
  - eexists. split; [intros w <-; now apply dispatch_p1|]. split.
    + apply quiet_publish with (f := fun names => ClassificationPayload _).
    + intros evs E. unfold route. rewrite P1.
      exact (published_of_publish _ _
               (fun names => ClassificationPayload _) _ E).
  - eexists. split; [intros w <-; now apply dispatch_p1|]. split.
    + apply quiet_publish with (f := fun names => ClassificationPayload _).
    + intros evs E. unfold route. rewrite P1.
      exact (published_of_publish _ _
               (fun names => ClassificationPayload _) _ E).
  - eexists. split; [intros w <-; now apply dispatch_p2_visualize|]. split.
    + apply quiet_publish with (f := fun resultImg => ImagePayload _).
    + intros evs E. unfold route. rewrite P2, V.
      exact (published_of_publish _ _
               (fun resultImg => ImagePayload _) _ E).
  - eexists. split; [intros w <-; now apply dispatch_p2_action|]. split.
    + apply quiet_projection, p2_body_no_throw.
    + intros evs E. unfold route. rewrite P2, V.
      exact (published_of_projection _ _ _ _ E).
  - eexists. split; [intros w <-; now apply dispatch_p3_visualize|]. split.
    + apply quiet_publish with (f := fun resultImg => ImagePayload _).
    + intros evs E. unfold route. rewrite P3, V.
      exact (published_of_publish _ _
               (fun resultImg => ImagePayload _) _ E).
  - eexists. split; [intros w <-; now apply dispatch_p3_action|]. split.
    + apply quiet_projection, p3_body_no_throw.
    + intros evs E. unfold route. rewrite P3, V.
      exact (published_of_projection _ _ _ _ E).
  - eexists. split; [intros w <-; now apply dispatch_other|]. split.
    + apply quiet_nothing.
    + intros evs E. rewrite route_other by assumption.
      inversion E; subst; auto.
  - eexists. split; [intros w <-; now apply dispatch_other|]. split.
    + apply quiet_nothing.
    + intros evs E. rewrite route_other by assumption.
      inversion E; subst; auto.
Qed.

Lemma route_after_bootstrap (img : Mat) (w : World) :
  route (ortAgent_ (after_bootstrap img w)) = route (ortAgent_ w).
Proof.
  unfold route.
  now rewrite after_bootstrap_level, after_bootstrap_visualize.
Qed.

Lemma after_bootstrap_agent (img : Mat) (w w' : World) :
  ortAgent_ w = ortAgent_ w' ->
  ortAgent_ (after_bootstrap img w) = ortAgent_ (after_bootstrap img w').
Proof.
  intros E. unfold after_bootstrap; simpl. now rewrite E.
Qed.

(** The four ways a frame can go through the callback, each with the
    node it leaves.  The description depends on the node only through
    its container. *)
Lemma frame_cases (msg : Image.t) (a : EPDContainer) :
  (Image.height msg = 0 /\
   forall w, ortAgent_ w = a ->
     topic_callback ort msg w =
     (Ok tt, add_events [EvWarn "Input image empty. Discarding."] w)) \/
  (Image.height msg <> 0 /\
   exists e,
     toCvCopy msg "bgr8" = inl e /\
     forall w, ortAgent_ w = a ->
       topic_callback ort msg w = (Throw (foreign e), w)) \/
  (Image.height msg <> 0 /\
   exists img,
     toCvCopy msg "bgr8" = inr img /\
     isInit a = true /\ getWidth a <> cols img /\ getHeight a <> rows img /\
     forall w, ortAgent_ w = a ->
       topic_callback ort msg w =
       (Throw (runtime_error "Input camera changed. Please restart."), w)) \/
  (Image.height msg <> 0 /\
   exists img r,
     toCvCopy msg "bgr8" = inr img /\
     (isInit a = false \/ same_camera a img) /\
     quiet r /\
     (forall evs, r = Ok evs ->
        published evs = match route a with Some p => [p] | None => [] end /\
        infos evs = []) /\
     forall w, ortAgent_ w = a ->
       topic_callback ort msg w =
       then_fps (finish r (after_bootstrap img w))).
Proof.
  destruct (Z.eq_dec (Image.height msg) 0) as [Hz|Hz].
  { left. split; auto. intros w _. now apply topic_callback_empty. }
  right.
  assert (P : forall img,
              toCvCopy msg "bgr8" = inr img ->
              isInit a = false \/ same_camera a img ->
              exists img r,
                toCvCopy msg "bgr8" = inr img /\
                (isInit a = false \/ same_camera a img) /\
                quiet r /\
                (forall evs, r = Ok evs ->
                   published evs =
                     match route a with Some p => [p] | None => [] end /\
                   infos evs = []) /\
                forall w, ortAgent_ w = a ->
                  topic_callback ort msg w =
                  then_fps (finish r (after_bootstrap img w))).
  { intros img D Hp.
    set (w0 := {| ortAgent_ := a; rclcpp_ok := true; trace := [] |}).
    destruct (dispatch_route img (ortAgent_ (after_bootstrap img w0)))
      as (r & R1 & Q & R).
    exists img, r. split; [exact D|]. split; [exact Hp|].
    split; [exact Q|]. split.
    - intros evs E. destruct (R evs E) as [Rp Ri]. split; [|exact Ri].
      rewrite Rp, (route_after_bootstrap img w0). reflexivity.
    - intros w A. rewrite topic_callback_nonempty by assumption.
      rewrite (process_frame_passes ort msg w img D)
        by (now rewrite A).
      rewrite R1; [reflexivity|].
      now apply after_bootstrap_agent. }
  destruct (toCvCopy msg "bgr8") as [e|img] eqn:D.
  { left. split; auto. exists e. split; auto. intros w _.
    rewrite topic_callback_nonempty by assumption.
    now apply process_frame_undecodable. }
  right.
  destruct (isInit a) eqn:I.
  - destruct (Z.eq_dec (getWidth a) (cols img)) as [Ew|Ew];
      [|destruct (Z.eq_dec (getHeight a) (rows img)) as [Eh|Eh]].
    + right. split; auto. apply (P img); auto. right. now left.
    + right. split; auto. apply (P img); auto. right. now right.
    + left. split; auto. exists img.
      split; [reflexivity|]. split; [reflexivity|].
      split; [exact Ew|]. split; [exact Eh|].
      intros w A. rewrite topic_callback_nonempty by assumption.
      apply (process_frame_changed ort msg w img); rewrite ?A; auto.
  - right. split; auto. apply (P img); auto.
Qed.

(** What a frame does is a function of the message and the container:
    the outcome, the container afterwards and the events appended are the
    same on every node holding that container; the rclcpp context is left
    alone and the trace is only extended. *)
Lemma topic_callback_denotation (msg : Image.t) (a : EPDContainer) :
  exists (o : Res unit) (a' : EPDContainer) (evs : list Event),
    forall w, ortAgent_ w = a ->
      topic_callback ort msg w =
      (o, {| ortAgent_ := a'; rclcpp_ok := rclcpp_ok w;
             trace := trace w ++ evs |}).
Proof.
  destruct (frame_cases msg a)
    as [(Hz & E)|[(Hh & e & D & E)|[(Hh & img & D & I & Hw & Hg & E)
       |(Hh & img & r & D & P & Q & R & E)]]].
  - exists (Ok tt), a, [EvWarn "Input image empty. Discarding."].
    intros w A. rewrite (E w A). unfold add_events. now rewrite A.
  - exists (Throw (foreign e)), a, [].
    intros w A. rewrite (E w A), app_nil_r. destruct w; simpl in *.
    now subst.
  - exists (Throw (runtime_error "Input camera changed. Please restart.")),
      a, [].
    intros w A. rewrite (E w A), app_nil_r. destruct w; simpl in *.
    now subst.
  - exists (match r with
            | Ok _ => Ok tt
            | Throw e => Throw e
            | Undefined => Undefined
            end),
      (if isInit a then a else initialised_for img a),
      (bootstrap_events img a ++
       match r with
       | Ok evs => evs ++ [EvInfo fps_format]
       | _ => []
       end).
    intros w A. rewrite (E w A).
    destruct r as [evs|e|]; simpl; unfold after_bootstrap, add_events;
      simpl; rewrite A, ?app_nil_r, <- ?app_assoc; reflexivity.
Qed.

(** X1. A frame on which the callback throws (a decoder exception, the
    camera-changed error, a session exception) leaves no output behind:
    nothing was published, no latency line and no warning was logged,
    and the rclcpp context is as before.  The node itself is untouched,
    except that a first frame which got past the decoder has already
    initialised the session. *)
Theorem failed_frame_leaves_no_output :
  forall (msg : Image.t) (w : World) (e : Exception),
    fst (topic_callback ort msg w) = Throw e ->
    publications (emitted (topic_callback ort msg) w) = [] /\
    infos (emitted (topic_callback ort msg) w) = [] /\
    warnings (emitted (topic_callback ort msg) w) = [] /\
    rclcpp_ok (snd (topic_callback ort msg w)) = rclcpp_ok w /\
    (snd (topic_callback ort msg w) = w \/
     exists img,
       toCvCopy msg "bgr8" = inr img /\
       isInit (ortAgent_ w) = false /\
       snd (topic_callback ort msg w) = after_bootstrap img w).
Proof.
  intros msg w e0 F.
  destruct (frame_cases msg (ortAgent_ w))
    as [(Hz & E)|[(Hh & e & D & E)|[(Hh & img & D & I & Hw & Hg & E)
       |(Hh & img & r & D & P & Q & R & E)]]];
    specialize (E w eq_refl).
  - rewrite E in F. discriminate.
  - rewrite (emitted_unchanged (topic_callback ort msg) w)
      by (now rewrite E).
    rewrite E. simpl. auto 6.
  - rewrite (emitted_unchanged (topic_callback ort msg) w)
      by (now rewrite E).
    rewrite E. simpl. auto 6.
  - rewrite E, then_fps_finish_outcome in F.
    destruct r as [evs|e1|]; try discriminate.
    assert (T : topic_callback ort msg w =
                (Throw e1, after_bootstrap img w))
      by (now rewrite E).
    destruct (bootstrap_events_silent img (ortAgent_ w))
      as (_ & Bp & Bi & Bw).
    rewrite (emitted_extends (topic_callback ort msg) w
               (bootstrap_events img (ortAgent_ w)))
      by (now rewrite T).
    rewrite T. simpl. repeat (split; [assumption || reflexivity|]).
    destruct (isInit (ortAgent_ w)) eqn:I.
    + left. now apply after_bootstrap_steady.
    + right. exists img. auto.
Qed.

(** X2. The latency line closes every processed frame: on a non-empty
    frame on which the callback returns, the line is the last event
    appended and the only info line; an empty frame, and a frame on which
    the callback throws, log no latency line. *)
Theorem latency_line_closes_every_processed_frame :
  forall (msg : Image.t) (w : World),
    (Image.height msg <> 0 ->
     fst (topic_callback ort msg w) = Ok tt ->
     exists pre,
       emitted (topic_callback ort msg) w = pre ++ [EvInfo fps_format] /\
       infos pre = []) /\
    (Image.height msg = 0 \/
     (exists e, fst (topic_callback ort msg w) = Throw e) ->
     infos (emitted (topic_callback ort msg) w) = []).
Proof.
  intros msg w.
  destruct (frame_cases msg (ortAgent_ w))
    as [(Hz & E)|[(Hh & e & D & E)|[(Hh & img & D & I & Hw & Hg & E)
       |(Hh & img & r & D & P & Q & R & E)]]];
    specialize (E w eq_refl).
  - split; [intros Hh; contradiction|]. intros _.
    rewrite (emitted_extends (topic_callback ort msg) w
               [EvWarn "Input image empty. Discarding."])
      by (now rewrite E).
    reflexivity.
  - split; [rewrite E; discriminate|]. intros _.
    rewrite (emitted_unchanged (topic_callback ort msg) w)
      by (now rewrite E).
    reflexivity.
  - split; [rewrite E; discriminate|]. intros _.
    rewrite (emitted_unchanged (topic_callback ort msg) w)
      by (now rewrite E).
    reflexivity.
  - destruct (bootstrap_events_silent img (ortAgent_ w))
      as (_ & _ & Bi & _).
    assert (Em : emitted (topic_callback ort msg) w =
                 bootstrap_events img (ortAgent_ w) ++
                 match r with
                 | Ok evs => evs ++ [EvInfo fps_format]
                 | _ => []
                 end).
    { apply emitted_extends. rewrite E, then_fps_finish_trace.
      unfold after_bootstrap; simpl. now rewrite <- app_assoc. }
    rewrite Em, E, then_fps_finish_outcome. split.
    + intros _ HOk. destruct r as [evs| |]; try discriminate.
      exists (bootstrap_events img (ortAgent_ w) ++ evs).
      rewrite <- app_assoc. split; [reflexivity|].
      rewrite infos_app, Bi. now destruct (R evs eq_refl).
    + intros [Hz|[e F]]; [contradiction|].
      destruct r as [evs| |]; try discriminate.
      now rewrite app_nil_r.
Qed.

(** X3. The callback never publishes off its route, and never publishes
    on a frame it then fails on: whenever some publisher was used, it is
    the one the precision level and the visualize flag select, it was used
    exactly once, the frame was not empty and the callback returned
    normally. *)
Theorem publication_implies_route_and_return :
  forall (msg : Image.t) (w : World) (p : Publisher),
    In p (published (emitted (topic_callback ort msg) w)) ->
    route (ortAgent_ w) = Some p /\
    published (emitted (topic_callback ort msg) w) = [p] /\
    Image.height msg <> 0 /\
    fst (topic_callback ort msg w) = Ok tt.
Proof.
  intros msg w p Hin.
  destruct (frame_cases msg (ortAgent_ w))
    as [(Hz & E)|[(Hh & e & D & E)|[(Hh & img & D & I & Hw & Hg & E)
       |(Hh & img & r & D & P & Q & R & E)]]];
    specialize (E w eq_refl).
  - rewrite (emitted_extends (topic_callback ort msg) w
               [EvWarn "Input image empty. Discarding."]) in Hin
      by (now rewrite E).
    destruct Hin.
  - rewrite (emitted_unchanged (topic_callback ort msg) w) in Hin
      by (now rewrite E).
    destruct Hin.
  - rewrite (emitted_unchanged (topic_callback ort msg) w) in Hin
      by (now rewrite E).
    destruct Hin.
  - destruct (bootstrap_events_silent img (ortAgent_ w))
      as (Bp & _ & _ & _).
    assert (Em : emitted (topic_callback ort msg) w =
                 bootstrap_events img (ortAgent_ w) ++
                 match r with
                 | Ok evs => evs ++ [EvInfo fps_format]
                 | _ => []
                 end).
    { apply emitted_extends. rewrite E, then_fps_finish_trace.
      unfold after_bootstrap; simpl. now rewrite <- app_assoc. }
    rewrite Em in *. rewrite E, then_fps_finish_outcome.
    rewrite published_app, Bp in *. simpl in *.
    destruct r as [evs| |]; try destruct Hin.
    rewrite published_app in *. simpl in *. rewrite app_nil_r in *.
    destruct (R evs eq_refl) as [Rp _]. rewrite Rp in *.
    destruct (route (ortAgent_ w)) as [q|]; [|destruct Hin].
    destruct Hin as [<-|[]]. auto.
Qed.

(** X4. An exception of the session entry point the switch calls leaves
    the callback unchanged, after the bootstrap: the frame is neither
    published nor timed, and a node that was not initialised is
    initialised all the same, so the next frame does not build the
    session again. *)
Theorem session_exception_propagates :
  forall (msg : Image.t) (w : World) (img : Mat) (e : ExtError),
    Image.height msg <> 0 ->
    toCvCopy msg "bgr8" = inr img ->
    isInit (ortAgent_ w) = false \/ same_camera (ortAgent_ w) img ->
    selected_session_throws ort (ortAgent_ w) img e ->
    topic_callback ort msg w = (Throw (foreign e), after_bootstrap img w) /\
    isInit (ortAgent_ (snd (topic_callback ort msg w))) = true /\
    emitted (topic_callback ort msg) w =
      bootstrap_events img (ortAgent_ w).
Proof.
  intros msg w img e Hh D P S.
  assert (T : topic_callback ort msg w =
              (Throw (foreign e), after_bootstrap img w)).
  { rewrite topic_callback_nonempty by assumption.
    rewrite (process_frame_passes ort msg w img D P).
    pose proof (after_bootstrap_level img w) as L.
    pose proof (after_bootstrap_visualize img w) as V.
    unfold selected_session_throws in S.
    destruct (precision_level (ortAgent_ w)) as [|p|p]; try contradiction.
    destruct p as [[q|q|]|[q|q|]|]; try contradiction.
    - destruct (isVisualize (ortAgent_ w)).
      + rewrite (dispatch_p3_visualize ort img _ L V), S. reflexivity.
      + rewrite (dispatch_p3_action ort img _ L V), S. reflexivity.
    - destruct (isVisualize (ortAgent_ w)).
      + rewrite (dispatch_p2_visualize ort img _ L V), S. reflexivity.
      + rewrite (dispatch_p2_action ort img _ L V), S. reflexivity.
    - rewrite (dispatch_p1 ort img _ L), S. reflexivity. }
  split; [exact T|]. split.
  - rewrite T. apply after_bootstrap_isInit.
  - apply emitted_extends. now rewrite T.
Qed.

(** X5. At precision level 1 the published message carries exactly the
    names the session returned, in the session's order, and that whatever
    the visualize flag says.  Conversely a level-1 frame on which the
    callback returns did get names from the session. *)
Theorem p1_frame_publishes_session_names :
  forall (msg : Image.t) (w : World) (img : Mat),
    Image.height msg <> 0 ->
    toCvCopy msg "bgr8" = inr img ->
    precision_level (ortAgent_ w) = 1 ->
    (forall names,
        p1_infer ort img = inr names ->
        isInit (ortAgent_ w) = false \/ same_camera (ortAgent_ w) img ->
        topic_callback ort msg w =
        (Ok tt,
         add_events
           [EvPublish p1_pub
              (ClassificationPayload
                 {| EPDImageClassification.object_names := names |});
            EvInfo fps_format]
           (after_bootstrap img w))) /\
    (fst (topic_callback ort msg w) = Ok tt ->
     exists names,
       p1_infer ort img = inr names /\
       publications (emitted (topic_callback ort msg) w) =
       [(p1_pub,
         ClassificationPayload
           {| EPDImageClassification.object_names := names |})]).
Proof.
  intros msg w img Hh D L.
  assert (A : forall names,
             p1_infer ort img = inr names ->
             isInit (ortAgent_ w) = false \/ same_camera (ortAgent_ w) img ->
             topic_callback ort msg w =
             (Ok tt,
              add_events
                [EvPublish p1_pub
                   (ClassificationPayload
                      {| EPDImageClassification.object_names := names |});
                 EvInfo fps_format]
                (after_bootstrap img w))).
  { intros names N P.
    rewrite topic_callback_nonempty by assumption.
    rewrite (process_frame_passes ort msg w img D P).
    rewrite dispatch_p1 by (now rewrite after_bootstrap_level).
    rewrite N. simpl. now rewrite add_events_app. }
  split; [exact A|].
  intros HOk.
  assert (P : isInit (ortAgent_ w) = false \/ same_camera (ortAgent_ w) img).
  { destruct (isInit (ortAgent_ w)) eqn:I; [|now left]. right.
    destruct (Z.eq_dec (getWidth (ortAgent_ w)) (cols img)) as [Ew|Ew];
      [now left|].
    destruct (Z.eq_dec (getHeight (ortAgent_ w)) (rows img)) as [Eh|Eh];
      [now right|].
    rewrite topic_callback_nonempty in HOk by assumption.
    rewrite (process_frame_changed ort msg w img D I Ew Eh) in HOk.
    discriminate. }
  destruct (p1_infer ort img) as [e|names] eqn:N.
  - rewrite topic_callback_nonempty in HOk by assumption.
    rewrite (process_frame_passes ort msg w img D P) in HOk.
    rewrite dispatch_p1 in HOk by (now rewrite after_bootstrap_level).
    rewrite N in HOk. discriminate.
  - exists names. split; [reflexivity|].
    destruct (bootstrap_events_silent img (ortAgent_ w))
      as (_ & Bp & _ & _).
    rewrite (emitted_extends (topic_callback ort msg) w
               (bootstrap_events img (ortAgent_ w) ++
                [EvPublish p1_pub
                   (ClassificationPayload
                      {| EPDImageClassification.object_names := names |});
                 EvInfo fps_format])).
    + now rewrite publications_app, Bp.
    + rewrite (A names eq_refl P). simpl. now rewrite app_assoc.
Qed.

(** X6. With the visualize flag set, levels 2 and 3 publish the same kind
    of message on the same topic: the image the session rendered, wrapped
    as "bgr8" with a default header, on the visualization publisher,
    followed by the latency line. *)
Theorem visualize_frame_publishes_rendered_image :
  forall (p3 : bool) (msg : Image.t) (w : World) (img rendered : Mat),
    Image.height msg <> 0 ->
    toCvCopy msg "bgr8" = inr img ->
    isVisualize (ortAgent_ w) = true ->
    (if p3
     then precision_level (ortAgent_ w) = 3 /\
          p3_infer_visualize ort img = inr rendered
     else precision_level (ortAgent_ w) = 2 /\
          p2_infer_visualize ort img = inr rendered) ->
    isInit (ortAgent_ w) = false \/ same_camera (ortAgent_ w) img ->
    topic_callback ort msg w =
    (Ok tt,
     add_events
       [EvPublish visual_pub (ImagePayload (toImageMsg "bgr8" rendered));
        EvInfo fps_format]
       (after_bootstrap img w)).
Proof.
  intros p3 msg w img rendered Hh D V Hr P.
  rewrite topic_callback_nonempty by assumption.
  rewrite (process_frame_passes ort msg w img D P).
  destruct p3; destruct Hr as [L R].
  - rewrite dispatch_p3_visualize
      by (now rewrite ?after_bootstrap_level, ?after_bootstrap_visualize).
    rewrite R. simpl. now rewrite add_events_app.
  - rewrite dispatch_p2_visualize
      by (now rewrite ?after_bootstrap_level, ?after_bootstrap_visualize).
    rewrite R. simpl. now rewrite add_events_app.
Qed.

(** X7. A detector result that announces no item is still published: the
    structured P2 or P3 frame sends one message whose sequences are all
    empty, whatever the result's vectors hold. *)
Theorem zero_detections_still_publish :
  forall (p3 : bool) (msg : Image.t) (w : World) (img : Mat)
         (r : EPDObjectDetection),
    Image.height msg <> 0 ->
    toCvCopy msg "bgr8" = inr img ->
    isVisualize (ortAgent_ w) = false ->
    (if p3
     then precision_level (ortAgent_ w) = 3 /\
          p3_infer_action ort img = inr r
     else precision_level (ortAgent_ w) = 2 /\
          p2_infer_action ort img = inr r) ->
    isInit (ortAgent_ w) = false \/ same_camera (ortAgent_ w) img ->
    data_size r = 0%nat ->
    topic_callback ort msg w =
    (Ok tt,
     add_events
       [EvPublish (if p3 then p3_pub else p2_pub)
          (DetectionPayload empty_detection);
        EvInfo fps_format]
       (after_bootstrap img w)).
Proof.
  intros p3 msg w img r Hh D V Hr P Z.
  destruct (detection_frame ort p3 msg w img r Hh D V Hr) as [A _].
  rewrite A; auto.
  - assert (E : (if p3 then p3_projection r else p2_projection r) =
                empty_detection).
    { destruct p3; unfold p3_projection, p2_projection; rewrite Z;
        reflexivity. }
    now rewrite E.
  - unfold covers. rewrite Z. repeat split; intros; lia.
Qed.

End MoreCallback.

(* ================================================================== *)
(** ** Sessions the configuration does not select *)

Section Sessions.
Context {backend : Backend}.

Lemma same_selected_session_config (ort1 ort2 : Sessions)
    (a a' : EPDContainer) (img : Mat) :
  precision_level a' = precision_level a ->
  isVisualize a' = isVisualize a ->
  same_selected_session ort1 ort2 a img ->
  same_selected_session ort1 ort2 a' img.
Proof.
  unfold same_selected_session. now intros -> ->.
Qed.

Lemma dispatch_same_selected (ort1 ort2 : Sessions) (img : Mat) (w : World) :
  same_selected_session ort1 ort2 (ortAgent_ w) img ->
  dispatch ort1 img w = dispatch ort2 img w.
Proof.
  unfold same_selected_session, dispatch, bind, agent. intros S.
  destruct (precision_level (ortAgent_ w)) as [|p|p]; try reflexivity.
  destruct p as [[q|q|]|[q|q|]|]; try reflexivity;
    try (destruct (isVisualize (ortAgent_ w))); now rewrite S.
Qed.

(** X9. Only the one session entry point that the precision level and the
    visualize flag select is consulted: two sets of sessions that agree at
    that entry point on the decoded frame make the callback behave
    identically, however the other entry points differ (throwing ones
    included). *)
Theorem unselected_sessions_are_irrelevant :
  forall (ort1 ort2 : Sessions) (msg : Image.t) (w : World),
    (forall img,
        toCvCopy msg "bgr8" = inr img ->
        same_selected_session ort1 ort2 (ortAgent_ w) img) ->
    topic_callback ort1 msg w = topic_callback ort2 msg w.
Proof.
  intros ort1 ort2 msg w S.
  destruct (Z.eq_dec (Image.height msg) 0) as [Hz|Hz].
  - now rewrite !topic_callback_empty.
  - rewrite !topic_callback_nonempty by assumption.
    destruct (toCvCopy msg "bgr8") as [e|img] eqn:D.
    + now rewrite !(process_frame_undecodable _ msg w e D).
    + rewrite !(process_frame_decoded _ msg w img D).
      pose proof (bootstrap_spec img w) as B.
      destruct (bootstrap img w) as [o w1]; simpl in B.
      inversion B; subst; try reflexivity.
      * f_equal. apply dispatch_same_selected.
        now apply (same_selected_session_config ort1 ort2 (ortAgent_ w)),
          (S img).
      * f_equal. apply dispatch_same_selected. now apply S.
Qed.

End Sessions.

(* ================================================================== *)
(** ** The control plane and sequences of callbacks *)

Lemma c_str_eq_iff (t : string) :
  (forall c, In c (list_ascii_of_string t) -> c <> Ascii.zero) ->
  forall s,
    c_str s = t <->
    s = t \/ exists rest, s = (t ++ String Ascii.zero rest)%string.
Proof.
  induction t as [|c t IH]; intros Hn s.
  - destruct s as [|d s]; simpl.
    + split; auto.
    + destruct (Ascii.eqb_spec d Ascii.zero) as [->|Hd]; split.
      * intros _. right. now exists s.
      * reflexivity.
      * discriminate.
      * intros [E|[rest E]]; [discriminate|].
        inversion E. contradiction.
  - assert (Hc : c <> Ascii.zero) by (apply Hn; now left).
    assert (Ht : forall d, In d (list_ascii_of_string t) -> d <> Ascii.zero)
      by (intros d Hd; apply Hn; now right).
    destruct s as [|d s]; simpl.
    + split; [discriminate|].
      intros [E|[rest E]]; discriminate.
    + destruct (Ascii.eqb_spec d Ascii.zero) as [->|Hd]; split.
      * discriminate.
      * intros [E|[rest E]]; inversion E; subst; contradiction.
      * intros E. injection E as E1 E2. subst d.
        apply (IH Ht) in E2. destruct E2 as [->|[rest ->]].
        -- now left.
        -- right. now exists rest.
      * intros [E|[rest E]]; simpl in E; injection E as E1 E2; subst d;
          f_equal; apply (IH Ht).
        -- now left.
        -- right. now exists rest.
Qed.

Section ControlPlane.
Context {backend : Backend}.
Variable ort : Sessions.

Lemma reads_shutdown_iff (msg : StringMsg.t) :
  reads_shutdown msg = true <-> c_str (StringMsg.data msg) = "shutdown".
Proof.
  unfold reads_shutdown. rewrite Z.eqb_eq. apply compare_zero_iff.
Qed.

(** The handler in one equation. *)
Lemma state_callback_run (msg : StringMsg.t) (w : World) :
  state_callback msg w =
  (Ok tt,
   {| ortAgent_ := ortAgent_ w;
      rclcpp_ok := rclcpp_ok w && negb (reads_shutdown msg);
      trace := trace w ++
               [if reads_shutdown msg then EvShutdown
                else EvWarn "Invalid state requested."] |}).
Proof.
  unfold state_callback, reads_shutdown.
  destruct (compare (c_str (StringMsg.data msg)) "shutdown" =? 0); simpl.
  - now rewrite andb_false_r.
  - now rewrite andb_true_r.
Qed.

(** X10. On a running node, a control message shuts the node down exactly
    when its payload is "shutdown" or "shutdown" followed by a NUL
    character and anything at all.  Every other payload (the empty one, a
    different case, a trailing blank) is answered with the warning.  The
    handler always returns, and it publishes nothing. *)
Theorem shutdown_payloads_characterised :
  forall (msg : StringMsg.t) (w : World),
    rclcpp_ok w = true ->
    (rclcpp_ok (snd (state_callback msg w)) = false <->
     (StringMsg.data msg = "shutdown" \/
      exists rest,
        StringMsg.data msg =
        ("shutdown" ++ String Ascii.zero rest)%string)) /\
    (rclcpp_ok (snd (state_callback msg w)) = true <->
     emitted (state_callback msg) w = [EvWarn "Invalid state requested."]) /\
    fst (state_callback msg w) = Ok tt /\
    publications (emitted (state_callback msg) w) = [].
Proof.
  intros msg w Hok.
  assert (N : forall c, In c (list_ascii_of_string "shutdown") ->
                        c <> Ascii.zero).
  { simpl. intros c H.
    repeat (destruct H as [<-|H]; [discriminate|]). destruct H. }
  pose proof (c_str_eq_iff "shutdown" N (StringMsg.data msg)) as C.
  pose proof (reads_shutdown_iff msg) as R.
  assert (Em : emitted (state_callback msg) w =
               [if reads_shutdown msg then EvShutdown
                else EvWarn "Invalid state requested."]).
  { apply emitted_extends. now rewrite state_callback_run. }
  rewrite Em, state_callback_run. simpl. rewrite Hok. simpl.
  destruct (reads_shutdown msg); simpl.
  - repeat split; auto; try discriminate.
    + intros _. apply C, R. reflexivity.
  - repeat split; auto; try discriminate.
    intros H. apply C, R in H. discriminate.
Qed.

(** A frame leaves the rclcpp context alone and keeps what a control
    message found in the container. *)
Lemma handle_denotation (i : Incoming) (a : EPDContainer) :
  exists (o : Res unit) (a' : EPDContainer) (evs : list Event) (b : bool),
    (forall w, ortAgent_ w = a ->
       handle ort i w =
       (o, {| ortAgent_ := a'; rclcpp_ok := rclcpp_ok w && b;
              trace := trace w ++ evs |})) /\
    match i with
    | image_input _ => b = true
    | state_input msg =>
        b = negb (reads_shutdown msg) /\ o = Ok tt /\ a' = a /\
        publications evs = []
    end.
Proof.
  destruct i as [msg|msg]; simpl.
  - destruct (topic_callback_denotation ort msg a) as (o & a' & evs & E).
    exists o, a', evs, true. split; [|reflexivity].
    intros w A. rewrite (E w A). now rewrite andb_true_r.
  - exists (Ok tt), a,
      [if reads_shutdown msg then EvShutdown
       else EvWarn "Invalid state requested."],
      (negb (reads_shutdown msg)).
    split.
    + intros w A. rewrite state_callback_run. now rewrite A.
    + repeat split. now destruct (reads_shutdown msg).
Qed.

Lemma run_callbacks_cons (i : Incoming) (rest : list Incoming) (w : World) :
  run_callbacks ort (i :: rest) w =
  match handle ort i w with
  | (Ok _, w') => run_callbacks ort rest w'
  | (Throw e, w') => (Throw e, w')
  | (Undefined, w') => (Undefined, w')
  end.
Proof. reflexivity. Qed.

Lemma run_frames_cons (msg : Image.t) (rest : list Image.t) (w : World) :
  run_frames ort (msg :: rest) w =
  match handle ort (image_input msg) w with
  | (Ok _, w') => run_frames ort rest w'
  | (Throw e, w') => (Throw e, w')
  | (Undefined, w') => (Undefined, w')
  end.
Proof. reflexivity. Qed.

(** A whole sequence of callbacks, read as a function of the container it
    starts from, next to the same sequence with the control messages
    taken out. *)
Lemma run_callbacks_denotation (ins : list Incoming) :
  forall a : EPDContainer,
  exists (o : Res unit) (a' : EPDContainer) (evs evs' : list Event)
         (b : bool),
    (forall w, ortAgent_ w = a ->
       run_callbacks ort ins w =
       (o, {| ortAgent_ := a'; rclcpp_ok := rclcpp_ok w && b;
              trace := trace w ++ evs |})) /\
    (forall w, ortAgent_ w = a ->
       run_frames ort (frames_of ins) w =
       (o, {| ortAgent_ := a'; rclcpp_ok := rclcpp_ok w;
              trace := trace w ++ evs' |})) /\
    publications evs = publications evs' /\
    (shutdown_requested ins = false -> b = true) /\
    (o = Ok tt -> b = negb (shutdown_requested ins)).
Proof.
  induction ins as [|i rest IH]; intros a.
  - exists (Ok tt), a, [], [], true.
    repeat split; auto; intros w A; destruct w; simpl in *; subst;
      now rewrite ?andb_true_r, app_nil_r.
  - destruct (handle_denotation i a) as (o1 & a1 & evs1 & b1 & E1 & F1).
    destruct (IH a1) as (o2 & a2 & evs2 & evs2' & b2 & E2 & G2 & P2 & S2 & T2).
    destruct o1 as [[]|e|].
    + (* the first callback returns: the rest runs *)
      destruct i as [msg|msg]; cbn [frames_of shutdown_requested];
        cbv beta iota in F1.
      * subst b1.
        exists o2, a2, (evs1 ++ evs2), (evs1 ++ evs2'), b2.
        split; [|split; [|split; [|split]]].
        -- intros w A. rewrite run_callbacks_cons, (E1 w A).
           rewrite E2 by reflexivity. cbn [rclcpp_ok trace].
           now rewrite andb_true_r, app_assoc.
        -- intros w A. rewrite run_frames_cons, (E1 w A), andb_true_r.
           rewrite G2 by reflexivity. cbn [rclcpp_ok trace].
           now rewrite app_assoc.
        -- now rewrite !publications_app, P2.
        -- exact S2.
        -- exact T2.
      * destruct F1 as (-> & _ & -> & Pz).
        exists o2, a2, (evs1 ++ evs2), evs2',
          (negb (reads_shutdown msg) && b2).
        split; [|split; [|split; [|split]]].
        -- intros w A. rewrite run_callbacks_cons, (E1 w A).
           rewrite E2 by reflexivity. cbn [rclcpp_ok trace].
           now rewrite andb_assoc, app_assoc.
        -- intros w A. now apply G2.
        -- now rewrite publications_app, Pz, P2.
        -- intros H. apply orb_false_elim in H. destruct H as [H1 H2].
           rewrite H1, (S2 H2). reflexivity.
        -- intros H. rewrite (T2 H). now rewrite negb_orb.
    + (* the first callback throws: only a frame does that *)
      destruct i as [msg|msg]; cbn [frames_of shutdown_requested];
        cbv beta iota in F1;
        [subst b1|destruct F1 as (_ & F & _); discriminate].
      exists (Throw e), a1, evs1, evs1, true.
      split; [|split; [|split; [|split]]]; auto; try discriminate.
      * intros w A. now rewrite run_callbacks_cons, (E1 w A).
      * intros w A. now rewrite run_frames_cons, (E1 w A), andb_true_r.
    + destruct i as [msg|msg]; cbn [frames_of shutdown_requested];
        cbv beta iota in F1;
        [subst b1|destruct F1 as (_ & F & _); discriminate].
      exists Undefined, a1, evs1, evs1, true.
      split; [|split; [|split; [|split]]]; auto; try discriminate.
      * intros w A. now rewrite run_callbacks_cons, (E1 w A).
      * intros w A. now rewrite run_frames_cons, (E1 w A), andb_true_r.
Qed.

(** X11. Control messages do not disturb the data plane: a sequence of
    incoming messages ends the same way, leaves the same container and
    makes the same publications, in the same order, as its frames alone.
    This holds for shutdown requests too: the frame callback never looks
    at the rclcpp context. *)
Theorem control_messages_do_not_disturb_frames :
  forall (ins : list Incoming) (w : World),
    fst (run_callbacks ort ins w) = fst (run_frames ort (frames_of ins) w) /\
    ortAgent_ (snd (run_callbacks ort ins w)) =
      ortAgent_ (snd (run_frames ort (frames_of ins) w)) /\
    publications (emitted (run_callbacks ort ins) w) =
      publications (emitted (run_frames ort (frames_of ins)) w).
Proof.
  intros ins w.
  destruct (run_callbacks_denotation ins (ortAgent_ w))
    as (o & a' & evs & evs' & b & E & G & P & _).
  specialize (E w eq_refl). specialize (G w eq_refl).
  rewrite (emitted_extends (run_callbacks ort ins) w evs)
    by (now rewrite E).
  rewrite (emitted_extends (run_frames ort (frames_of ins)) w evs')
    by (now rewrite G).
  rewrite E, G. auto.
Qed.

(** X12. A shutdown request is final and only a control message makes
    one: once the rclcpp context is down no sequence of callbacks brings
    it back; a sequence without a control message that reads "shutdown"
    leaves the context as it was, however its frames end; and a sequence
    that runs to its end leaves the context up exactly when it was up
    before and no control message read "shutdown". *)
Theorem shutdown_request_is_final :
  forall (ins : list Incoming) (w : World),
    (rclcpp_ok w = false ->
     rclcpp_ok (snd (run_callbacks ort ins w)) = false) /\
    (shutdown_requested ins = false ->
     rclcpp_ok (snd (run_callbacks ort ins w)) = rclcpp_ok w) /\
    (fst (run_callbacks ort ins w) = Ok tt ->
     rclcpp_ok (snd (run_callbacks ort ins w)) =
     rclcpp_ok w && negb (shutdown_requested ins)).
Proof.
  intros ins w.
  destruct (run_callbacks_denotation ins (ortAgent_ w))
    as (o & a' & evs & evs' & b & E & _ & _ & S & T).
  specialize (E w eq_refl). rewrite E. simpl.
  split; [|split].
  - now intros ->.
  - intros H. rewrite (S H). now rewrite andb_true_r.
  - intros H. now rewrite (T H).
Qed.

End ControlPlane.

(* ================================================================== *)
(** ** Further concrete runs *)

(** X1 on a first frame whose P2 inference fails. *)
Lemma failed_frame_leaves_no_output_witness :
  fst (topic_callback faulty_sessions (frame 640 480) (fresh_node 2 false)) =
    Throw (foreign ("onnxruntime failure" : @ExtError stub_backend)) /\
  publications
    (emitted (topic_callback faulty_sessions (frame 640 480))
       (fresh_node 2 false)) = [] /\
  infos
    (emitted (topic_callback faulty_sessions (frame 640 480))
       (fresh_node 2 false)) = [].
Proof.
  assert (F : fst (topic_callback faulty_sessions (frame 640 480)
                     (fresh_node 2 false)) =
              Throw (foreign ("onnxruntime failure" : @ExtError stub_backend)))
    by reflexivity.
  destruct (failed_frame_leaves_no_output faulty_sessions (frame 640 480)
              (fresh_node 2 false) _ F) as (P & I & _).
  split; [exact F|]. split; [exact P | exact I].
Defined.

(** X2 on the P1 happy path. *)
Lemma latency_line_closes_every_processed_frame_witness :
  Image.height (frame 640 480) <> 0 /\
  fst (topic_callback stub_sessions (frame 640 480) (fresh_node 1 false)) =
    Ok tt /\
  exists pre,
    emitted (topic_callback stub_sessions (frame 640 480))
      (fresh_node 1 false) = pre ++ [EvInfo fps_format] /\
    infos pre = [].
Proof.
  assert (Hh : Image.height (frame 640 480) <> 0) by discriminate.
  split; [exact Hh|]. split; [reflexivity|].
  exact (proj1 (latency_line_closes_every_processed_frame stub_sessions
                  (frame 640 480) (fresh_node 1 false)) Hh eq_refl).
Defined.

(** X3 on a structured P3 frame. *)
Lemma publication_implies_route_and_return_witness :
  In p3_pub
    (published
       (emitted (topic_callback stub_sessions (frame 640 480))
          (running_node 3 false))) /\
  route (ortAgent_ (running_node 3 false)) = Some p3_pub /\
  fst (topic_callback stub_sessions (frame 640 480) (running_node 3 false)) =
    Ok tt.
Proof.
  assert (H : In p3_pub
                (published
                   (emitted (topic_callback stub_sessions (frame 640 480))
                      (running_node 3 false)))) by (left; reflexivity).
  destruct (publication_implies_route_and_return stub_sessions
              (frame 640 480) (running_node 3 false) p3_pub H)
    as (R & _ & _ & O).
  split; [exact H|]. split; [exact R | exact O].
Defined.

(** X4 on a first frame whose P2 inference fails: the node is
    initialised all the same. *)
Lemma session_exception_propagates_witness :
  Image.height (frame 640 480) <> 0 /\
  selected_session_throws faulty_sessions (ortAgent_ (fresh_node 2 false))
    (640, 480) "onnxruntime failure" /\
  fst (topic_callback faulty_sessions (frame 640 480) (fresh_node 2 false)) =
    Throw (foreign ("onnxruntime failure" : @ExtError stub_backend)) /\
  isInit
    (ortAgent_
       (snd (topic_callback faulty_sessions (frame 640 480)
               (fresh_node 2 false)))) = true.
Proof.
  assert (Hh : Image.height (frame 640 480) <> 0) by discriminate.
  assert (S : selected_session_throws faulty_sessions
                (ortAgent_ (fresh_node 2 false)) (640, 480)
                "onnxruntime failure") by reflexivity.
  destruct (session_exception_propagates faulty_sessions (frame 640 480)
              (fresh_node 2 false) (640, 480) "onnxruntime failure"
              Hh eq_refl (or_introl eq_refl) S) as (T & I & _).
  split; [exact Hh|]. split; [exact S|]. split; [|exact I].
  rewrite T. reflexivity.
Defined.

(** X5 on the second end-to-end scenario, with the visualize flag set. *)
Lemma p1_frame_publishes_session_names_witness :
  Image.height (frame 640 480) <> 0 /\
  precision_level (ortAgent_ (running_node 1 true)) = 1 /\
  fst (topic_callback stub_sessions (frame 640 480) (running_node 1 true)) =
    Ok tt /\
  exists names,
    p1_infer stub_sessions (640, 480) = inr names /\
    publications
      (emitted (topic_callback stub_sessions (frame 640 480))
         (running_node 1 true)) =
    [(p1_pub,
      ClassificationPayload
        {| EPDImageClassification.object_names := names |})].
Proof.
  assert (Hh : Image.height (frame 640 480) <> 0) by discriminate.
  split; [exact Hh|]. split; [reflexivity|]. split; [reflexivity|].
  exact (proj2 (p1_frame_publishes_session_names stub_sessions
                  (frame 640 480) (running_node 1 true) (640, 480)
                  Hh eq_refl eq_refl) eq_refl).
Defined.

(** X6 on the fourth end-to-end scenario. *)
Lemma visualize_frame_publishes_rendered_image_witness :
  Image.height (frame 640 480) <> 0 /\
  isVisualize (ortAgent_ (running_node 2 true)) = true /\
  publications
    (emitted (topic_callback stub_sessions (frame 640 480))
       (running_node 2 true)) =
  [(visual_pub,
    ImagePayload
      {| Image.height := 480; Image.width := 640;
         Image.encoding := "bgr8"; Image.data := [] |})].
Proof.
  assert (Hh : Image.height (frame 640 480) <> 0) by discriminate.
  split; [exact Hh|]. split; [reflexivity|].
  unfold emitted.
  rewrite (visualize_frame_publishes_rendered_image stub_sessions false
             (frame 640 480) (running_node 2 true) (640, 480) (640, 480)
             Hh eq_refl eq_refl (conj eq_refl eq_refl)
             (or_intror (or_introl eq_refl))).
  reflexivity.
Defined.

(** X7 on a detector that found nothing. *)
Lemma zero_detections_still_publish_witness :
  Image.height (frame 640 480) <> 0 /\
  data_size stub_empty_result = 0%nat /\
  publications
    (emitted (topic_callback idle_sessions (frame 640 480))
       (running_node 2 false)) =
  [(p2_pub, DetectionPayload empty_detection)].
Proof.
  assert (Hh : Image.height (frame 640 480) <> 0) by discriminate.
  split; [exact Hh|]. split; [reflexivity|].
  unfold emitted.
  rewrite (zero_detections_still_publish idle_sessions false
             (frame 640 480) (running_node 2 false) (640, 480)
             stub_empty_result Hh eq_refl eq_refl (conj eq_refl eq_refl)
             (or_intror (or_introl eq_refl)) eq_refl).
  reflexivity.
Defined.

(** X9: at level 3 the failing P2 session goes unnoticed. *)
Lemma unselected_sessions_are_irrelevant_witness :
  (forall img,
      @toCvCopy stub_backend (frame 640 480) "bgr8" = inr img ->
      same_selected_session stub_sessions faulty_sessions
        (ortAgent_ (running_node 3 false)) img) /\
  topic_callback stub_sessions (frame 640 480) (running_node 3 false) =
  topic_callback faulty_sessions (frame 640 480) (running_node 3 false).
Proof.
  assert (S : forall img,
             @toCvCopy stub_backend (frame 640 480) "bgr8" = inr img ->
             same_selected_session stub_sessions faulty_sessions
               (ortAgent_ (running_node 3 false)) img)
    by (intros img _; reflexivity).
  split; [exact S|].
  exact (unselected_sessions_are_irrelevant stub_sessions faulty_sessions
           (frame 640 480) (running_node 3 false) S).
Defined.

(** X10 on the payload "shutdown", NUL, "now". *)
Lemma shutdown_payloads_characterised_witness :
  rclcpp_ok (running_node 1 false) = true /\
  (exists rest,
      StringMsg.data nul_payload_msg =
      ("shutdown" ++ String Ascii.zero rest)%string) /\
  rclcpp_ok (snd (state_callback nul_payload_msg (running_node 1 false))) =
    false.
Proof.
  assert (R : exists rest,
             StringMsg.data nul_payload_msg =
             ("shutdown" ++ String Ascii.zero rest)%string)
    by (exists "now"; reflexivity).
  split; [reflexivity|]. split; [exact R|].
  apply (proj1 (shutdown_payloads_characterised nul_payload_msg
                  (running_node 1 false) eq_refl)).
  right. exact R.
Defined.

(** X12 on a frame, an unknown directive and another frame. *)
Lemma shutdown_request_is_final_witness :
  shutdown_requested
    [image_input (frame 640 480);
     state_input {| StringMsg.data := "pause" |};
     image_input (frame 640 480)] = false /\
  rclcpp_ok
    (snd (run_callbacks stub_sessions
            [image_input (frame 640 480);
             state_input {| StringMsg.data := "pause" |};
             image_input (frame 640 480)]
            (fresh_node 1 false))) = true.
Proof.
  split; [reflexivity|].
  rewrite (proj1 (proj2 (shutdown_request_is_final stub_sessions
                           [image_input (frame 640 480);
                            state_input {| StringMsg.data := "pause" |};
                            image_input (frame 640 480)]
                           (fresh_node 1 false))) eq_refl).
  reflexivity.
Defined.

(** A shutdown request between two invocations of the frame callback:
    the second invocation handles its frame like the first, on a context
    that is down. *)
Example frame_after_shutdown_is_processed :
  published
    (emitted
       (run_callbacks stub_sessions
          [image_input (frame 640 480);
           state_input {| StringMsg.data := "shutdown" |};
           image_input (frame 640 480)])
       (fresh_node 1 false)) = [p1_pub; p1_pub] /\
  rclcpp_ok
    (snd (run_callbacks stub_sessions
            [image_input (frame 640 480);
             state_input {| StringMsg.data := "shutdown" |};
             image_input (frame 640 480)]
            (fresh_node 1 false))) = false.
Proof. split; reflexivity. Qed.
